(** * Verification of plaso's Bash history parser and Firefox SQLite plugins

    A shallow embedding of

    - [plaso/parsers/bash_history.py] (the pyparsing grammars of
      [BashHistoryParser], [ParseRecord] and [VerifyStructure]), and
    - [plaso/parsers/sqlite_plugins/firefox.py] (the row handlers of
      [FirefoxHistoryPlugin] and [FirefoxDownloadsPlugin], [_ReverseHostname]
      and [_GetUrl]),

    followed by the properties of the specification that concern them.

    Python [unicode] strings are lists of characters; the files are Python 2
    and the regular expressions are byte patterns, so [\d] and [\s] have their
    ASCII meaning.  Integers are [Z]. *)

From Stdlib Require Import ZArith Lia Ascii String.
From stdpp Require Import base option list strings gmap.

Local Open Scope Z_scope.
Local Open Scope list_scope.

(** ** Characters and Python strings *)

Definition pystr : Type := list ascii.

Definition str (s : string) : pystr := list_ascii_of_string s.

Definition LF : ascii := "010"%char.
Definition TAB : ascii := "009"%char.
Definition VT : ascii := "011"%char.
Definition FF : ascii := "012"%char.
Definition CR : ascii := "013"%char.
Definition SP : ascii := " "%char.
Definition HASH : ascii := "#"%char.
Definition DOT : ascii := "."%char.

(** [pyparsing.nums], which is also [\d] of a byte pattern. *)
Definition is_num (c : ascii) : bool :=
  let n := nat_of_ascii c in (48 <=? n)%nat && (n <=? 57)%nat.

(** [ParserElement.DEFAULT_WHITE_CHARS], the characters pyparsing skips in
    front of a token. *)
Definition is_white (c : ascii) : bool :=
  Ascii.eqb c SP || Ascii.eqb c LF || Ascii.eqb c TAB || Ascii.eqb c CR.

(** The white characters of [pyparsing.LineEnd]: the default ones without the
    line feed. *)
Definition is_white_lineEnd (c : ascii) : bool :=
  Ascii.eqb c SP || Ascii.eqb c TAB || Ascii.eqb c CR.

(** [\s] of a byte pattern. *)
Definition is_re_space (c : ascii) : bool :=
  is_white c || Ascii.eqb c FF || Ascii.eqb c VT.

(** [int(token)] for a token made of decimal digits. *)
Definition int_of_nums (ds : pystr) : Z :=
  fold_left (fun acc c => 10 * acc + (Z.of_nat (nat_of_ascii c) - 48)) ds 0.

(** ** Events, event data and the parser mediator *)

(** Modelled from the spec: the timestamp roles ("timestamp_role (enum: e.g.
    creation, modification, last-visited, start, end)"), under the names of
    [plaso.lib.eventdata.EventTimestamp] that the two files use. *)
Inductive EventTimestamp : Type :=
| ADDED_TIME
| MODIFICATION_TIME
| PAGE_VISITED
| START_TIME
| END_TIME.

Global Instance EventTimestamp_eq_dec : EqDecision EventTimestamp.
Proof. solve_decision. Defined.

(** A value of a column of a [sqlite3.Row]. *)
Inductive sql_value : Type :=
| SqlNull
| SqlInteger (z : Z)
| SqlText (s : pystr).

Global Instance sql_value_eq_dec : EqDecision sql_value.
Proof. solve_decision. Defined.

(** The date and time values of [dfdatetime.posix_time], with the [timestamp]
    argument they were built from. *)
Inductive DateTimeValues : Type :=
| PosixTime (timestamp : Z)
| PosixTimeInMicroseconds (timestamp : sql_value).

(** [time_events.DateTimeValuesEvent(date_time, timestamp_desc)]. *)
Record Event : Type := DateTimeValuesEvent {
  date_time : DateTimeValues;
  timestamp_desc : EventTimestamp
}.

Record BashHistoryEventData : Type := {
  command : pystr
}.

Record FirefoxPlacesBookmarkAnnotationEventData : Type := {
  annotation_content : sql_value;
  annotation_offset : sql_value;
  annotation_query : option pystr;
  annotation_title : sql_value;
  annotation_url : sql_value
}.

Record FirefoxPlacesBookmarkFolderEventData : Type := {
  folder_offset : sql_value;
  folder_query : option pystr;
  folder_title : sql_value
}.

Record FirefoxPlacesBookmarkEventData : Type := {
  bookmark_host : sql_value;
  bookmark_offset : sql_value;
  bookmark_places_title : sql_value;
  bookmark_query : option pystr;
  bookmark_title : sql_value;
  bookmark_type : pystr;
  bookmark_url : sql_value;
  bookmark_visit_count : sql_value
}.

Record FirefoxPlacesPageVisitedEventData : Type := {
  extra : option (list pystr);
  visited_host : pystr;
  visited_offset : sql_value;
  visited_query : option pystr;
  visited_title : sql_value;
  visited_url : sql_value;
  visited_visit_count : sql_value;
  visited_visit_type : sql_value
}.

Record FirefoxDownloadEventData : Type := {
  full_path : sql_value;
  mime_type : sql_value;
  download_name : sql_value;
  download_offset : sql_value;
  download_query : option pystr;
  received_bytes : sql_value;
  referrer : sql_value;
  temporary_location : sql_value;
  total_bytes : sql_value;
  download_url : sql_value
}.

Inductive EventData : Type :=
| BashHistory (d : BashHistoryEventData)
| BookmarkAnnotation (d : FirefoxPlacesBookmarkAnnotationEventData)
| BookmarkFolder (d : FirefoxPlacesBookmarkFolderEventData)
| Bookmark (d : FirefoxPlacesBookmarkEventData)
| PageVisited (d : FirefoxPlacesPageVisitedEventData)
| Download (d : FirefoxDownloadEventData).

(** Modelled from the spec: the parser mediator ([plaso.parsers.mediator] is
    not part of the sources at hand).  It is "a thin forwarding interface
    [produce(event, eventData)]" that "preserves emission order within one
    plugin's extraction pass".  Event data are Python objects, so the mediator
    state keeps the objects that were created ([event_data_objects], an object
    being identified by its index) and the sequence of produced pairs of an
    event and a reference to its event data object. *)
Record ParserMediator : Type := {
  event_data_objects : list EventData;
  produced : list (Event * nat)
}.

Definition empty_mediator : ParserMediator :=
  {| event_data_objects := []; produced := [] |}.

(** Creation of an event data object with its attributes set: the reference
    of the new object and the state that holds it. *)
Definition new_event_data (d : EventData) (m : ParserMediator)
  : nat * ParserMediator :=
  (length (event_data_objects m),
   {| event_data_objects := event_data_objects m ++ [d];
      produced := produced m |}).

Definition ProduceEventWithEventData (e : Event) (ref : nat)
    (m : ParserMediator) : ParserMediator :=
  {| event_data_objects := event_data_objects m;
     produced := produced m ++ [(e, ref)] |}.

(** ** The Bash history parser *)

Module BashHistoryParser.

(** *** pyparsing elements *)

(** [ParserElement.preParse]: the white characters in front of a token are
    skipped. *)
Fixpoint skip (white : ascii -> bool) (s : pystr) : pystr :=
  match s with
  | c :: r => if white c then skip white r else s
  | [] => []
  end.

(** The loop of [Word.parseImpl]: at most [n] characters of [nums]. *)
Fixpoint take_nums (n : nat) (s : pystr) : pystr * pystr :=
  match n, s with
  | S n', c :: r =>
      if is_num c
      then let '(ds, r') := take_nums n' r in (c :: ds, r')
      else ([], s)
  | _, _ => ([], s)
  end.

(** [pyparsing.Word(pyparsing.nums, min=min, max=max)]: the match fails when
    fewer than [min] digits are found and when a digit follows the longest
    run allowed. *)
Definition Word_nums (min max : nat) (s : pystr) : option (pystr * pystr) :=
  let '(ds, r) := take_nums max s in
  if (length ds <? min)%nat then None
  else match r with
       | c :: _ => if is_num c then None else Some (ds, r)
       | [] => Some (ds, r)
       end.

(** Modelled from the spec: [text_parser.PyParseIntCast] (the module
    [plaso.parsers.text_parser] is not part of the sources at hand); the
    anchor is "a 9-10 digit decimal integer (seconds since Unix epoch)", so
    the token is cast to the integer it denotes. *)
Definition PyParseIntCast (token : pystr) : Z := int_of_nums token.

(** [_TIMESTAMP = Suppress('#') + Word(nums, min=9, max=10)], entered without
    skipping white characters in front of the marker; they are skipped in
    front of the word, as in front of every token. *)
Definition _TIMESTAMP (s : pystr) : option (Z * pystr) :=
  match s with
  | c :: r =>
      if Ascii.eqb c HASH
      then match Word_nums 9 10 (skip is_white r) with
           | Some (ds, r') => Some (PyParseIntCast ds, r')
           | None => None
           end
      else None
  | [] => None
  end.

(** The lookahead [(?=($|\n#\d{10}))] of [_COMMAND].  Without [re.MULTILINE],
    [$] holds at the end of the text and in front of a line feed that ends
    the text. *)
Definition lookahead (s : pystr) : bool :=
  match s with
  | [] => true
  | c :: r =>
      Ascii.eqb c LF &&
      match r with
      | [] => true
      | h :: r' =>
          Ascii.eqb h HASH &&
          (let '(ds, _) := take_nums 10 r' in (length ds =? 10)%nat)
      end
  end.

(** The regular expression of [_COMMAND], [.*?(?=($|\n#\d{10}))] with
    [re.DOTALL]: the shortest run of characters after which the lookahead
    holds.  The result is the matched text and the text that remains. *)
Fixpoint _COMMAND_regex (s : pystr) : pystr * pystr :=
  if lookahead s then ([], s)
  else match s with
       | c :: r => let '(m, r') := _COMMAND_regex r in (c :: m, r')
       | [] => ([], [])
       end.

(** [pyparsing.lineEnd()], entered after its white characters: a line feed,
    or the end of the text. *)
Definition lineEnd (s : pystr) : option pystr :=
  match skip is_white_lineEnd s with
  | [] => Some []
  | c :: r => if Ascii.eqb c LF then Some r else None
  end.

(** The parse results of [_LINE_GRAMMAR]: the named results [timestamp] and
    [command]. *)
Record structure : Type := {
  timestamp : Z;
  structure_command : pystr
}.

(** [_LINE_GRAMMAR = _TIMESTAMP + _COMMAND + pyparsing.lineEnd()] matched at
    the start of [s]: the parse results and the text after the match. *)
Definition _LINE_GRAMMAR (s : pystr) : option (structure * pystr) :=
  match _TIMESTAMP s with
  | Some (t, r1) =>
      let '(cmd, r2) := _COMMAND_regex (skip is_white r1) in
      match lineEnd r2 with
      | Some r3 => Some ({| timestamp := t; structure_command := cmd |}, r3)
      | None => None
      end
  | None => None
  end.

(** [pyparsing.pythonStyleComment], [Regex(r"#.*")], entered after the white
    characters: does it match? *)
Definition pythonStyleComment (s : pystr) : bool :=
  match skip is_white s with
  | c :: _ => Ascii.eqb c HASH
  | [] => false
  end.

(** The rest of a line: what [.*?$] skips with [re.MULTILINE]. *)
Fixpoint to_end_of_line (s : pystr) : pystr :=
  match s with
  | c :: r => if Ascii.eqb c LF then s else to_end_of_line r
  | [] => []
  end.

(** The regular expression [^\s?[^#].*?$] with [re.MULTILINE], matched at a
    position that is ([bol]) or is not at the beginning of a line.  The
    greedy [\s?] first takes a space character when the character after it
    can be taken by [[^#]]. *)
Definition _VERIFICATION_regex (bol : bool) (s : pystr) : option pystr :=
  if negb bol then None
  else match s with
       | [] => None
       | c1 :: r1 =>
           match r1 with
           | c2 :: r2 =>
               if is_re_space c1 && negb (Ascii.eqb c2 HASH)
               then Some (to_end_of_line r2)
               else if negb (Ascii.eqb c1 HASH)
                    then Some (to_end_of_line r1)
                    else None
           | [] => if negb (Ascii.eqb c1 HASH) then Some [] else None
           end
       end.

(** [_VERIFICATION_GRAMMAR], the regular expression, [_TIMESTAMP] and
    [NotAny(pythonStyleComment)], matched at one position. *)
Definition _VERIFICATION_GRAMMAR (bol : bool) (s : pystr) : bool :=
  match _VERIFICATION_regex bol s with
  | Some r1 =>
      match _TIMESTAMP (skip is_white r1) with
      | Some (_, r2) => negb (pythonStyleComment r2)
      | None => false
      end
  | None => false
  end.

(** [scanString(line, maxMatches=1)]: the grammar is tried at every position
    that remains after the white characters are skipped, from left to right,
    until it matches.  ([scanString] first expands the tabulations to spaces;
    a tabulation and a space are treated alike by every element of the
    grammar, so the text is scanned as it is.) *)
Fixpoint scanString (bol : bool) (s : pystr) : bool :=
  match s with
  | [] => false
  | c :: r =>
      if is_white c then scanString (Ascii.eqb c LF) r
      else _VERIFICATION_GRAMMAR bol s || scanString false r
  end.

(** *** The methods of the parser *)

Inductive exception : Type :=
| ParseError (message : pystr).

Definition ParseRecord (parser_mediator : ParserMediator) (key : pystr)
    (st : structure) : option exception * ParserMediator :=
  if negb (bool_decide (key = str "log_entry"))
  then (Some (ParseError
                (str "Unable to parse record, unknown structure: " ++ key)),
        parser_mediator)
  else
    let '(event_data, m1) :=
      new_event_data (BashHistory {| command := structure_command st |})
                     parser_mediator in
    let date_time := PosixTime (timestamp st) in
    let event := DateTimeValuesEvent date_time MODIFICATION_TIME in
    (None, ProduceEventWithEventData event event_data m1).

Definition VerifyStructure (line : pystr) : bool := scanString true line.

End BashHistoryParser.

(** ** The Firefox plugins *)

(** Truth value of a column value in a Python condition: [None], [0] and the
    empty string are false. *)
Definition py_truthy (v : sql_value) : bool :=
  match v with
  | SqlNull => false
  | SqlInteger z => negb (z =? 0)
  | SqlText s => negb (bool_decide (s = []))
  end.

(** Python's [a or b]. *)
Definition py_or (a b : sql_value) : sql_value :=
  if py_truthy a then a else b.

(** A column of TEXT affinity holds NULL or a text; the handlers slice and
    format the values of such columns ([url] and [rev_host] of [moz_places]),
    everything else is copied, compared or tested as it is. *)
Definition sql_text (v : option pystr) : sql_value :=
  match v with
  | Some s => SqlText s
  | None => SqlNull
  end.

Global Instance sql_value_countable : Countable sql_value.
Proof.
  refine (inj_countable'
    (fun v => match v with
              | SqlNull => inl ()
              | SqlInteger z => inr (inl z)
              | SqlText s => inr (inr s)
              end)
    (fun x => match x with
              | inl _ => SqlNull
              | inr (inl z) => SqlInteger z
              | inr (inr s) => SqlText s
              end) _).
  intros []; reflexivity.
Defined.

(** *** The tables of [places.sqlite] and [downloads.sqlite] *)

Record moz_places : Type := {
  p_id : sql_value;
  p_url : option pystr;
  p_title : sql_value;
  p_rev_host : option pystr;
  p_visit_count : sql_value;
  p_hidden : sql_value;
  p_typed : sql_value
}.

Record moz_historyvisits : Type := {
  h_id : sql_value;
  h_from_visit : sql_value;
  h_place_id : sql_value;
  h_visit_date : sql_value;
  h_visit_type : sql_value
}.

Record moz_bookmarks : Type := {
  b_id : sql_value;
  b_type : sql_value;
  b_fk : sql_value;
  b_title : sql_value;
  b_dateAdded : sql_value;
  b_lastModified : sql_value
}.

Record moz_items_annos : Type := {
  a_id : sql_value;
  a_item_id : sql_value;
  a_content : sql_value;
  a_dateAdded : sql_value;
  a_lastModified : sql_value
}.

(** *** The rows of the queries *)

Record PageVisitedRow : Type := {
  pv_id : sql_value;
  pv_url : option pystr;
  pv_title : sql_value;
  pv_visit_count : sql_value;
  pv_visit_date : sql_value;
  pv_from_visit : sql_value;
  pv_rev_host : option pystr;
  pv_hidden : sql_value;
  pv_typed : sql_value;
  pv_visit_type : sql_value
}.

Record BookmarkRow : Type := {
  bm_type : sql_value;
  bm_bookmark_title : sql_value;
  bm_dateAdded : sql_value;
  bm_lastModified : sql_value;
  bm_url : option pystr;
  bm_places_title : sql_value;
  bm_rev_host : option pystr;
  bm_visit_count : sql_value;
  bm_id : sql_value
}.

Record BookmarkAnnotationRow : Type := {
  an_content : sql_value;
  an_dateAdded : sql_value;
  an_lastModified : sql_value;
  an_title : sql_value;
  an_url : option pystr;
  an_rev_host : option pystr;
  an_id : sql_value
}.

Record BookmarkFolderRow : Type := {
  fo_id : sql_value;
  fo_title : sql_value;
  fo_dateAdded : sql_value;
  fo_lastModified : sql_value
}.

Record DownloadsRow : Type := {
  dl_id : sql_value;
  dl_name : sql_value;
  dl_source : sql_value;
  dl_target : sql_value;
  dl_tempPath : sql_value;
  dl_startTime : sql_value;
  dl_endTime : sql_value;
  dl_state : sql_value;
  dl_referrer : sql_value;
  dl_currBytes : sql_value;
  dl_maxBytes : sql_value;
  dl_mimeType : sql_value
}.

(** The row of [URL_CACHE_QUERY]. *)
Record UrlCacheRow : Type := {
  uc_id : sql_value;
  uc_url : option pystr;
  uc_rev_host : option pystr
}.

(** *** The database and the result cache *)

Inductive Query : Type :=
| PAGE_VISITED_QUERY
| BOOKMARK_QUERY
| BOOKMARK_ANNOTATION_QUERY
| BOOKMARK_FOLDER_QUERY
| URL_CACHE_QUERY.

Global Instance Query_eq_dec : EqDecision Query.
Proof. solve_decision. Defined.

(** Modelled from the spec: the database object ([plaso.parsers.sqlite] is
    not part of the sources at hand), "a relational-query execution
    abstraction supplying [Query(text) -> rows]".  The object holds the
    tables and, so that executions can be counted, the queries it has run. *)
Record SQLiteDatabase : Type := {
  places : list moz_places;
  historyvisits : list moz_historyvisits;
  bookmarks : list moz_bookmarks;
  items_annos : list moz_items_annos;
  executed : list Query
}.

(** Modelled from the spec: the effect of [database.Query(text)] on the
    database object; the rows it returns are [result_rows] and
    [url_cache_rows] below. *)
Definition run (q : Query) (db : SQLiteDatabase) : SQLiteDatabase :=
  {| places := places db; historyvisits := historyvisits db;
     bookmarks := bookmarks db; items_annos := items_annos db;
     executed := executed db ++ [q] |}.

(** The comparison [=] of SQL on stored values: NULL is equal to nothing, and
    values of different storage classes differ. *)
Definition sql_eq (a b : sql_value) : bool :=
  match a, b with
  | SqlInteger x, SqlInteger y => x =? y
  | SqlText x, SqlText y => bool_decide (x = y)
  | _, _ => false
  end.

(** The comparison [<>] of SQL. *)
Definition sql_ne (a b : sql_value) : bool :=
  match a, b with
  | SqlNull, _ | _, SqlNull => false
  | _, _ => negb (sql_eq a b)
  end.

(** [FROM moz_places, moz_historyvisits
     WHERE moz_places.id = moz_historyvisits.place_id]. *)
Definition places_historyvisits (db : SQLiteDatabase)
  : list (moz_places * moz_historyvisits) :=
  p ← places db;
  h ← historyvisits db;
  if sql_eq (p_id p) (h_place_id h) then [(p, h)] else [].

Definition page_visited_rows (db : SQLiteDatabase) : list PageVisitedRow :=
  (fun '(p, h) =>
     {| pv_id := h_id h; pv_url := p_url p; pv_title := p_title p;
        pv_visit_count := p_visit_count p; pv_visit_date := h_visit_date h;
        pv_from_visit := h_from_visit h; pv_rev_host := p_rev_host p;
        pv_hidden := p_hidden p; pv_typed := p_typed p;
        pv_visit_type := h_visit_type h |}) <$> places_historyvisits db.

Definition url_cache_rows (db : SQLiteDatabase) : list UrlCacheRow :=
  (fun '(p, h) =>
     {| uc_id := h_id h; uc_url := p_url p; uc_rev_host := p_rev_host p |})
    <$> places_historyvisits db.

(** [FROM moz_places, moz_bookmarks
     WHERE moz_bookmarks.fk = moz_places.id AND moz_bookmarks.type <> 3]. *)
Definition bookmark_rows (db : SQLiteDatabase) : list BookmarkRow :=
  p ← places db;
  b ← bookmarks db;
  if sql_eq (b_fk b) (p_id p) && sql_ne (b_type b) (SqlInteger 3)
  then [{| bm_type := b_type b; bm_bookmark_title := b_title b;
           bm_dateAdded := b_dateAdded b; bm_lastModified := b_lastModified b;
           bm_url := p_url p; bm_places_title := p_title p;
           bm_rev_host := p_rev_host p; bm_visit_count := p_visit_count p;
           bm_id := b_id b |}]
  else [].

(** [FROM moz_items_annos, moz_bookmarks, moz_places
     WHERE moz_items_annos.item_id = moz_bookmarks.id
     AND moz_bookmarks.fk = moz_places.id]. *)
Definition bookmark_annotation_rows (db : SQLiteDatabase)
  : list BookmarkAnnotationRow :=
  a ← items_annos db;
  b ← bookmarks db;
  p ← places db;
  if sql_eq (a_item_id a) (b_id b) && sql_eq (b_fk b) (p_id p)
  then [{| an_content := a_content a; an_dateAdded := a_dateAdded a;
           an_lastModified := a_lastModified a; an_title := b_title b;
           an_url := p_url p; an_rev_host := p_rev_host p;
           an_id := a_id a |}]
  else [].

(** [FROM moz_bookmarks WHERE moz_bookmarks.type = 2]. *)
Definition bookmark_folder_rows (db : SQLiteDatabase)
  : list BookmarkFolderRow :=
  b ← bookmarks db;
  if sql_eq (b_type b) (SqlInteger 2)
  then [{| fo_id := b_id b; fo_title := b_title b;
           fo_dateAdded := b_dateAdded b;
           fo_lastModified := b_lastModified b |}]
  else [].

(** Modelled from the spec: the result cache ([SQLiteCache] of
    [plaso.parsers.sqlite] is not part of the sources at hand).  A cache entry
    is "keyed by (cache_name), value is a mapping from a row key (string or
    integer) to a fixed-arity tuple of column values"; here the tuple is the
    pair of the columns [url] and [rev_host]. *)
Abbreviation SQLiteCache :=
  (gmap string (gmap sql_value (option pystr * option pystr))).

(** Modelled from the spec: [cache.GetResults(name)], the mapping stored
    under the cache name, if any ("subsequent lookups for the same cache name
    ... are pure map reads"). *)
Definition GetResults (name : string) (cache : SQLiteCache)
  : option (gmap sql_value (option pystr * option pystr)) :=
  cache !! name.

(** Modelled from the spec:
    [cache.CacheQueryResults(result_set, name, 'id', ('url', 'rev_host'))],
    "build the full key->value-tuple mapping, store it under that cache
    name".  A later row replaces an earlier one with the same key. *)
Definition CacheQueryResults (result_set : list UrlCacheRow) (name : string)
    (cache : SQLiteCache) : SQLiteCache :=
  <[name :=
      foldl (fun m r => <[uc_id r := (uc_url r, uc_rev_host r)]> m)
            ∅ result_set]> cache.

Module FirefoxHistoryPlugin.

(** [_BOOKMARK_TYPES.get(value, u'N/A')]. *)
Definition _BOOKMARK_TYPES_get (v : sql_value) : pystr :=
  match v with
  | SqlInteger 1 => str "URL"
  | SqlInteger 2 => str "Folder"
  | SqlInteger 3 => str "Separator"
  | _ => str "N/A"
  end.

(** [hostname[-1] == '.'] on a string that is not empty. *)
Definition ends_with_dot (hostname : pystr) : bool :=
  match last hostname with
  | Some c => Ascii.eqb c DOT
  | None => false
  end.

Definition _ReverseHostname (hostname : option pystr) : pystr :=
  match hostname with
  | None => []
  | Some [] => []
  | Some h =>
      if (1 <? length h)%nat
      then if ends_with_dot h
           then drop 1 (reverse h)
           else drop 0 (reverse h)
      else h
  end.

(** Truth value of the result of [GetResults] in a condition: [None] and the
    empty mapping are false. *)
Definition results_truthy
    (r : option (gmap sql_value (option pystr * option pystr))) : bool :=
  match r with
  | Some m => negb (bool_decide (m = ∅))
  | None => false
  end.

(** The result is the returned string with the cache and the database as
    the call leaves them.  (After [CacheQueryResults] the name is bound, so
    [url_cache_results] is a mapping when [get] is called.) *)
Definition _GetUrl (url_id : sql_value) (cache : SQLiteCache)
    (database : SQLiteDatabase) : pystr * SQLiteCache * SQLiteDatabase :=
  let url_cache_results := GetResults "url" cache in
  let '(url_cache_results, cache, database) :=
    if negb (results_truthy url_cache_results)
    then
      let result_set := url_cache_rows database in
      let database := run URL_CACHE_QUERY database in
      let cache := CacheQueryResults result_set "url" cache in
      (GetResults "url" cache, cache, database)
    else (url_cache_results, cache, database) in
  let '(url, reverse_host) :=
    default (Some [], Some []) (m ← url_cache_results; m !! url_id) in
  if negb (py_truthy (sql_text url)) then ([], cache, database)
  else
    let hostname := _ReverseHostname reverse_host in
    (default [] url ++ str " (" ++ hostname ++ str ")", cache, database).

Definition ParseBookmarkAnnotationRow (parser_mediator : ParserMediator)
    (row : BookmarkAnnotationRow) (query : option pystr) : ParserMediator :=
  let '(event_data, m) :=
    new_event_data
      (BookmarkAnnotation
         {| annotation_content := an_content row;
            annotation_offset := an_id row;
            annotation_query := query;
            annotation_title := an_title row;
            annotation_url := sql_text (an_url row) |})
      parser_mediator in
  let timestamp := an_dateAdded row in
  let m :=
    if py_truthy timestamp
    then ProduceEventWithEventData
           (DateTimeValuesEvent (PosixTimeInMicroseconds timestamp)
                                ADDED_TIME) event_data m
    else m in
  let timestamp := an_lastModified row in
  if py_truthy timestamp
  then ProduceEventWithEventData
         (DateTimeValuesEvent (PosixTimeInMicroseconds timestamp)
                              MODIFICATION_TIME) event_data m
  else m.

Definition ParseBookmarkFolderRow (parser_mediator : ParserMediator)
    (row : BookmarkFolderRow) (query : option pystr) : ParserMediator :=
  let '(event_data, m) :=
    new_event_data
      (BookmarkFolder
         {| folder_offset := fo_id row;
            folder_query := query;
            folder_title := py_or (fo_title row) (SqlText (str "N/A")) |})
      parser_mediator in
  let timestamp := fo_dateAdded row in
  let m :=
    if py_truthy timestamp
    then ProduceEventWithEventData
           (DateTimeValuesEvent (PosixTimeInMicroseconds timestamp)
                                ADDED_TIME) event_data m
    else m in
  let timestamp := fo_lastModified row in
  if py_truthy timestamp
  then ProduceEventWithEventData
         (DateTimeValuesEvent (PosixTimeInMicroseconds timestamp)
                              MODIFICATION_TIME) event_data m
  else m.

Definition ParseBookmarkRow (parser_mediator : ParserMediator)
    (row : BookmarkRow) (query : option pystr) : ParserMediator :=
  let '(event_data, m) :=
    new_event_data
      (Bookmark
         {| bookmark_host :=
              py_or (sql_text (bm_rev_host row)) (SqlText (str "N/A"));
            bookmark_offset := bm_id row;
            bookmark_places_title := bm_places_title row;
            bookmark_query := query;
            bookmark_title := bm_bookmark_title row;
            bookmark_type := _BOOKMARK_TYPES_get (bm_type row);
            bookmark_url := sql_text (bm_url row);
            bookmark_visit_count := bm_visit_count row |})
      parser_mediator in
  let timestamp := bm_dateAdded row in
  let m :=
    if py_truthy timestamp
    then ProduceEventWithEventData
           (DateTimeValuesEvent (PosixTimeInMicroseconds timestamp)
                                ADDED_TIME) event_data m
    else m in
  let timestamp := bm_lastModified row in
  if py_truthy timestamp
  then ProduceEventWithEventData
         (DateTimeValuesEvent (PosixTimeInMicroseconds timestamp)
                              MODIFICATION_TIME) event_data m
  else m.

(** The annotation list [extras] of [ParsePageVisitedRow], with the cache and
    the database as the call of [_GetUrl], if any, leaves them. *)
Definition page_visited_extras (row : PageVisitedRow) (cache : SQLiteCache)
    (database : SQLiteDatabase)
  : list pystr * SQLiteCache * SQLiteDatabase :=
  let extras := [] in
  let '(extras, cache, database) :=
    if py_truthy (pv_from_visit row)
    then
      let '(url, cache, database) :=
        _GetUrl (pv_from_visit row) cache database in
      (extras ++ [str "visited from: " ++ url], cache, database)
    else (extras, cache, database) in
  let extras :=
    if bool_decide (pv_hidden row = SqlText (str "1"))
    then extras ++ [str "(url hidden)"]
    else extras in
  let extras :=
    if bool_decide (pv_typed row = SqlText (str "1"))
    then extras ++ [str "(directly typed)"]
    else extras ++ [str "(URL not typed directly)"] in
  (extras, cache, database).

Definition ParsePageVisitedRow (parser_mediator : ParserMediator)
    (row : PageVisitedRow) (cache : SQLiteCache) (database : SQLiteDatabase)
    (query : option pystr)
  : ParserMediator * SQLiteCache * SQLiteDatabase :=
  let '(extras, cache, database) := page_visited_extras row cache database in
  let '(event_data, m) :=
    new_event_data
      (PageVisited
         {| extra := if bool_decide (extras = []) then None else Some extras;
            visited_host := _ReverseHostname (pv_rev_host row);
            visited_offset := pv_id row;
            visited_query := query;
            visited_title := pv_title row;
            visited_url := sql_text (pv_url row);
            visited_visit_count := pv_visit_count row;
            visited_visit_type := pv_visit_type row |})
      parser_mediator in
  let timestamp := pv_visit_date row in
  let m :=
    if py_truthy timestamp
    then ProduceEventWithEventData
           (DateTimeValuesEvent (PosixTimeInMicroseconds timestamp)
                                PAGE_VISITED) event_data m
    else m in
  (m, cache, database).

End FirefoxHistoryPlugin.

Module FirefoxDownloadsPlugin.

Definition ParseDownloadsRow (parser_mediator : ParserMediator)
    (row : DownloadsRow) (query : option pystr) : ParserMediator :=
  let '(event_data, m) :=
    new_event_data
      (Download
         {| full_path := dl_target row;
            mime_type := dl_mimeType row;
            download_name := dl_name row;
            download_offset := dl_id row;
            download_query := query;
            received_bytes := dl_currBytes row;
            referrer := dl_referrer row;
            temporary_location := dl_tempPath row;
            total_bytes := dl_maxBytes row;
            download_url := dl_source row |})
      parser_mediator in
  let timestamp := dl_startTime row in
  let m :=
    if py_truthy timestamp
    then ProduceEventWithEventData
           (DateTimeValuesEvent (PosixTimeInMicroseconds timestamp)
                                START_TIME) event_data m
    else m in
  let timestamp := dl_endTime row in
  if py_truthy timestamp
  then ProduceEventWithEventData
         (DateTimeValuesEvent (PosixTimeInMicroseconds timestamp)
                              END_TIME) event_data m
  else m.

End FirefoxDownloadsPlugin.

(** *** Rows, handlers and the scan of a source *)

(** A row of one of the queries, with the handler the query is bound to. *)
Inductive Row : Type :=
| page_visited_row (row : PageVisitedRow)
| bookmark_row (row : BookmarkRow)
| bookmark_annotation_row (row : BookmarkAnnotationRow)
| bookmark_folder_row (row : BookmarkFolderRow)
| downloads_row (row : DownloadsRow).

(** The objects a row handler is called with. *)
Record Scan : Type := {
  mediator : ParserMediator;
  cache : SQLiteCache;
  database : SQLiteDatabase
}.

(** The call of the row handler of a row. *)
Definition callback (row : Row) (query : option pystr) (s : Scan) : Scan :=
  match row with
  | page_visited_row r =>
      let '(m, c, d) :=
        FirefoxHistoryPlugin.ParsePageVisitedRow
          (mediator s) r (cache s) (database s) query in
      {| mediator := m; cache := c; database := d |}
  | bookmark_row r =>
      {| mediator := FirefoxHistoryPlugin.ParseBookmarkRow (mediator s) r query;
         cache := cache s; database := database s |}
  | bookmark_annotation_row r =>
      {| mediator :=
           FirefoxHistoryPlugin.ParseBookmarkAnnotationRow (mediator s) r query;
         cache := cache s; database := database s |}
  | bookmark_folder_row r =>
      {| mediator :=
           FirefoxHistoryPlugin.ParseBookmarkFolderRow (mediator s) r query;
         cache := cache s; database := database s |}
  | downloads_row r =>
      {| mediator :=
           FirefoxDownloadsPlugin.ParseDownloadsRow (mediator s) r query;
         cache := cache s; database := database s |}
  end.

(** The raw timestamp columns of a row, each with the timestamp role of the
    event its handler makes of it, in the order of the handler. *)
Definition timestamp_columns (row : Row) : list (EventTimestamp * sql_value) :=
  match row with
  | page_visited_row r => [(PAGE_VISITED, pv_visit_date r)]
  | bookmark_row r =>
      [(ADDED_TIME, bm_dateAdded r); (MODIFICATION_TIME, bm_lastModified r)]
  | bookmark_annotation_row r =>
      [(ADDED_TIME, an_dateAdded r); (MODIFICATION_TIME, an_lastModified r)]
  | bookmark_folder_row r =>
      [(ADDED_TIME, fo_dateAdded r); (MODIFICATION_TIME, fo_lastModified r)]
  | downloads_row r =>
      [(START_TIME, dl_startTime r); (END_TIME, dl_endTime r)]
  end.

(** A timestamp column holds what its declaration says: an integer or NULL. *)
Definition integer_or_null (v : sql_value) : bool :=
  match v with
  | SqlNull | SqlInteger _ => true
  | SqlText _ => false
  end.

(** The queries of [FirefoxHistoryPlugin.QUERIES], in their order. *)
Definition QUERIES : list Query :=
  [PAGE_VISITED_QUERY; BOOKMARK_QUERY; BOOKMARK_ANNOTATION_QUERY;
   BOOKMARK_FOLDER_QUERY].

Definition query_text (q : Query) : pystr :=
  match q with
  | PAGE_VISITED_QUERY =>
      str ("SELECT moz_historyvisits.id, moz_places.url, moz_places.title, "
           ++ "moz_places.visit_count, moz_historyvisits.visit_date, "
           ++ "moz_historyvisits.from_visit, moz_places.rev_host, "
           ++ "moz_places.hidden, moz_places.typed, moz_historyvisits.visit_type "
           ++ "FROM moz_places, moz_historyvisits "
           ++ "WHERE moz_places.id = moz_historyvisits.place_id")
  | BOOKMARK_QUERY =>
      str ("SELECT moz_bookmarks.type, moz_bookmarks.title AS bookmark_title, "
           ++ "moz_bookmarks.dateAdded, moz_bookmarks.lastModified, "
           ++ "moz_places.url, moz_places.title AS places_title, "
           ++ "moz_places.rev_host, moz_places.visit_count, moz_bookmarks.id "
           ++ "FROM moz_places, moz_bookmarks "
           ++ "WHERE moz_bookmarks.fk = moz_places.id AND moz_bookmarks.type <> 3")
  | BOOKMARK_ANNOTATION_QUERY =>
      str ("SELECT moz_items_annos.content, moz_items_annos.dateAdded, "
           ++ "moz_items_annos.lastModified, moz_bookmarks.title, "
           ++ "moz_places.url, moz_places.rev_host, moz_items_annos.id "
           ++ "FROM moz_items_annos, moz_bookmarks, moz_places "
           ++ "WHERE moz_items_annos.item_id = moz_bookmarks.id "
           ++ "AND moz_bookmarks.fk = moz_places.id")
  | BOOKMARK_FOLDER_QUERY =>
      str ("SELECT moz_bookmarks.id, moz_bookmarks.title,"
           ++ "moz_bookmarks.dateAdded, moz_bookmarks.lastModified "
           ++ "FROM moz_bookmarks WHERE moz_bookmarks.type = 2")
  | URL_CACHE_QUERY =>
      str ("SELECT h.id AS id, p.url, p.rev_host FROM moz_places p, "
           ++ "moz_historyvisits h WHERE p.id = h.place_id")
  end.

(** The rows [database.Query] returns for a query of [QUERIES]. *)
Definition result_rows (q : Query) (db : SQLiteDatabase) : list Row :=
  match q with
  | PAGE_VISITED_QUERY => page_visited_row <$> page_visited_rows db
  | BOOKMARK_QUERY => bookmark_row <$> bookmark_rows db
  | BOOKMARK_ANNOTATION_QUERY =>
      bookmark_annotation_row <$> bookmark_annotation_rows db
  | BOOKMARK_FOLDER_QUERY => bookmark_folder_row <$> bookmark_folder_rows db
  | URL_CACHE_QUERY => []
  end.

(** Modelled from the spec: the query engine ([SQLitePlugin] of
    [plaso.parsers.sqlite_plugins.interface] is not part of the sources at
    hand).  "For each query, execute it to completion against the relational
    source and invoke the bound row-handler once per returned row, passing
    the row, the shared Result Cache, a handle to the source for on-demand
    auxiliary queries, and the originating query text." *)
Definition ParseQuery (s : Scan) (q : Query) : Scan :=
  let rows := result_rows q (database s) in
  let s := {| mediator := mediator s; cache := cache s;
              database := run q (database s) |} in
  foldl (fun s row => callback row (Some (query_text q)) s) s rows.

(** Modelled from the spec: one invocation of the history plugin on one
    source, with "a fresh Result Cache ... created per (plugin, source)
    pair". *)
Definition Process (parser_mediator : ParserMediator) (db : SQLiteDatabase)
  : Scan :=
  foldl ParseQuery
        {| mediator := parser_mediator; cache := ∅; database := db |}
        QUERIES.

(** The number of times a query was run on a database. *)
Definition executions (q : Query) (db : SQLiteDatabase) : nat :=
  length (filter (fun x => x = q) (executed db)).

Definition nl (a b : pystr) : pystr := a ++ LF :: b.

(** * Vocabulary of the properties *)

(** Does the text start with a digit? *)
Definition starts_with_num (s : pystr) : bool :=
  match s with
  | c :: _ => is_num c
  | [] => false
  end.

(** The shape of an anchor as [_TIMESTAMP] takes it: the marker, the white
    characters pyparsing skips in front of a token, and a run of nine or ten
    digits that no further digit follows.  [r] is the text after the anchor. *)
Definition anchor_at (s r : pystr) : Prop :=
  ∃ ws ds, s = HASH :: ws ++ ds ++ r ∧
           forallb is_white ws = true ∧ forallb is_num ds = true ∧
           (9 ≤ length ds ≤ 10)%nat ∧ starts_with_num r = false.

(** The two-record history of the specification, and the same history with
    a second record of the year 2001, whose anchor has nine digits. *)
Definition history_ten_digits : pystr :=
  nl (str "#1609459200") (nl (str "ls -la")
     (nl (str "#1609459260") (str "whoami"))).

Definition history_nine_digits : pystr :=
  nl (str "#1609459200") (nl (str "ls -la")
     (nl (str "#999999999") (str "whoami"))).

(** A comment follows: after white characters, the marker. *)
Definition comment_follows (r : pystr) : Prop :=
  ∃ ws rest, r = ws ++ HASH :: rest ∧ forallb is_white ws = true.

(** Is a predicate true of every suffix of a text? *)
Fixpoint every_suffix (P : pystr → bool) (s : pystr) : bool :=
  P s && match s with
         | [] => true
         | _ :: r => every_suffix P r
         end.

(** At this position there is no anchor, or a comment follows the anchor. *)
Definition anchor_commented (s : pystr) : bool :=
  match BashHistoryParser._TIMESTAMP s with
  | Some (_, r) => BashHistoryParser.pythonStyleComment r
  | None => true
  end.

(** Is there a marker that a digit follows at once? *)
Fixpoint marker_then_num (s : pystr) : bool :=
  match s with
  | c :: r => (Ascii.eqb c HASH && starts_with_num r) || marker_then_num r
  | [] => false
  end.

(** A line without a comment mark, and then a marker whose digits come after
    a blank. *)
Definition marker_blank_digits : pystr := nl (str "x") (str "# 123456789").

(** A hostname that starts with a dot and does not end with one. *)
Definition leading_dot_hostname : pystr := str ".example.com".

(** The events a handler makes of the timestamp columns of a row: one for
    each column that is true in a condition, with the role of the column,
    all referring to the event data object [ref]. *)
Definition events_for (ref : nat) (columns : list (EventTimestamp * sql_value))
  : list (Event * nat) :=
  (fun c => (DateTimeValuesEvent (PosixTimeInMicroseconds c.2) c.1, ref))
    <$> List.filter (fun c => py_truthy c.2) columns.

(** The history entry of the specification: added at 1000000 microseconds,
    never modified. *)
Definition added_only_row : Row :=
  bookmark_row
    {| bm_type := SqlInteger 1; bm_bookmark_title := SqlText (str "plaso");
       bm_dateAdded := SqlInteger 1000000; bm_lastModified := SqlInteger 0;
       bm_url := Some (str "https://github.com/log2timeline/plaso");
       bm_places_title := SqlNull; bm_rev_host := Some (str "moc.buhtig.");
       bm_visit_count := SqlInteger 3; bm_id := SqlInteger 7 |}.

Definition empty_database : SQLiteDatabase :=
  {| places := []; historyvisits := []; bookmarks := []; items_annos := [];
     executed := [] |}.

Definition empty_scan : Scan :=
  {| mediator := empty_mediator; cache := ∅; database := empty_database |}.

(** The mapping [CacheQueryResults] builds from a result set. *)
Definition url_mapping (result_set : list UrlCacheRow)
  : gmap sql_value (option pystr * option pystr) :=
  foldl (fun m r => <[uc_id r := (uc_url r, uc_rev_host r)]> m) ∅ result_set.

(** The tables of two database objects are the same. *)
Definition same_tables (d d' : SQLiteDatabase) : Prop :=
  places d = places d' ∧ historyvisits d = historyvisits d' ∧
  bookmarks d = bookmarks d' ∧ items_annos d = items_annos d'.

(** The state of the URL cache during a scan of the database [d0]: nothing
    is stored and the cache query was not run, or a mapping with entries is
    stored and the cache query was run once. *)
Definition url_cache_state (d0 : SQLiteDatabase) (s : Scan) : Prop :=
  same_tables (database s) d0 ∧
  ((cache s !! "url" = None ∧
    executions URL_CACHE_QUERY (database s) = executions URL_CACHE_QUERY d0) ∨
   (∃ mp, cache s !! "url" = Some mp ∧ mp ≠ ∅ ∧
          executions URL_CACHE_QUERY (database s)
          = S (executions URL_CACHE_QUERY d0))).

(** A source with one place that was visited twice, the second visit coming
    from the first one. *)
Definition two_visits_database : SQLiteDatabase :=
  {| places :=
       [{| p_id := SqlInteger 1;
           p_url := Some (str "https://www.google.com/");
           p_title := SqlText (str "Google");
           p_rev_host := Some (str "moc.elgoog.www.");
           p_visit_count := SqlInteger 2;
           p_hidden := SqlText (str "1"); p_typed := SqlText (str "0") |}];
     historyvisits :=
       [{| h_id := SqlInteger 10; h_from_visit := SqlInteger 0;
           h_place_id := SqlInteger 1; h_visit_date := SqlInteger 1000000;
           h_visit_type := SqlInteger 1 |};
        {| h_id := SqlInteger 11; h_from_visit := SqlInteger 10;
           h_place_id := SqlInteger 1; h_visit_date := SqlInteger 2000000;
           h_visit_type := SqlInteger 1 |}];
     bookmarks := []; items_annos := []; executed := [] |}.

(** The markers of the flags [hidden] and [typed] of a page visit. *)
Definition flag_markers (row : PageVisitedRow) : list pystr :=
  (if bool_decide (pv_hidden row = SqlText (str "1"))
   then [str "(url hidden)"] else [])
  ++ [if bool_decide (pv_typed row = SqlText (str "1"))
      then str "(directly typed)" else str "(URL not typed directly)"].

(** The extra attribute of the event data object the handler has created for
    a row: the object is the last one of the mediator. *)
Definition created_extra (m : ParserMediator) : option (list pystr) :=
  match last (event_data_objects m) with
  | Some (PageVisited d) => extra d
  | _ => None
  end.

(** A page visit without a referring visit, as Firefox stores it: the
    column [from_visit] is 0, not NULL. *)
Definition first_visit_row : PageVisitedRow :=
  {| pv_id := SqlInteger 10;
     pv_url := Some (str "https://www.google.com/");
     pv_title := SqlText (str "Google");
     pv_visit_count := SqlInteger 2;
     pv_visit_date := SqlInteger 1000000;
     pv_from_visit := SqlInteger 0;
     pv_rev_host := Some (str "moc.elgoog.www.");
     pv_hidden := SqlText (str "1");
     pv_typed := SqlText (str "0");
     pv_visit_type := SqlInteger 1 |}.

(** The visit that came from the first one. *)
Definition second_visit_row : PageVisitedRow :=
  {| pv_id := SqlInteger 11;
     pv_url := Some (str "https://www.google.com/");
     pv_title := SqlText (str "Google");
     pv_visit_count := SqlInteger 2;
     pv_visit_date := SqlInteger 2000000;
     pv_from_visit := SqlInteger 10;
     pv_rev_host := Some (str "moc.elgoog.www.");
     pv_hidden := SqlText (str "1");
     pv_typed := SqlText (str "0");
     pv_visit_type := SqlInteger 1 |}.

(** No position inside the payload [m], which the text [tail] follows, is
    one at which the lookahead of [_COMMAND] holds. *)
Fixpoint no_boundary_inside (m tail : pystr) : bool :=
  match m with
  | [] => true
  | _ :: m' =>
      negb (BashHistoryParser.lookahead (m ++ tail))
      && no_boundary_inside m' tail
  end.

(** Is the position after the text [pre] at the beginning of a line, when
    the position in front of [pre] is ([bol]) or is not? *)
Definition bol_at (bol : bool) (pre : pystr) : bool :=
  match last pre with
  | Some c => Ascii.eqb c LF
  | None => bol
  end.

(** The text [_GetUrl] makes of the entry of a url id, or of its absence. *)
Definition url_text (entry : option (option pystr * option pystr)) : pystr :=
  let '(url, reverse_host) := default (Some [], Some []) entry in
  if negb (py_truthy (sql_text url)) then []
  else default [] url ++ str " ("
       ++ FirefoxHistoryPlugin._ReverseHostname reverse_host ++ str ")".

(** Every produced event refers to an event data object that exists. *)
Definition references_valid (m : ParserMediator) : Prop :=
  ∀ e ref, (e, ref) ∈ produced m → (ref < length (event_data_objects m))%nat.

(** The rows of the four queries of the history plugin, in the order in
    which an invocation hands them to the handlers. *)
Definition all_rows (db : SQLiteDatabase) : list Row :=
  q ← QUERIES; result_rows q db.

(** The events of a sequence of rows, the handler of the first row creating
    the event data object [ref], the next one the object after it. *)
Fixpoint events_of_rows (ref : nat) (rows : list Row) : list (Event * nat) :=
  match rows with
  | [] => []
  | row :: rows =>
      events_for ref (timestamp_columns row) ++ events_of_rows (S ref) rows
  end.

(** A source with a bookmarked place, a bookmark folder and a separator. *)
Definition bookmarks_database : SQLiteDatabase :=
  {| places :=
       [{| p_id := SqlInteger 1;
           p_url := Some (str "https://www.google.com/");
           p_title := SqlText (str "Google");
           p_rev_host := Some (str "moc.elgoog.www.");
           p_visit_count := SqlInteger 2;
           p_hidden := SqlInteger 0; p_typed := SqlInteger 1 |}];
     historyvisits := [];
     bookmarks :=
       [{| b_id := SqlInteger 5; b_type := SqlInteger 1;
           b_fk := SqlInteger 1; b_title := SqlText (str "Search");
           b_dateAdded := SqlInteger 1000000;
           b_lastModified := SqlInteger 2000000 |};
        {| b_id := SqlInteger 6; b_type := SqlInteger 2;
           b_fk := SqlNull; b_title := SqlNull;
           b_dateAdded := SqlInteger 1000000; b_lastModified := SqlInteger 0 |};
        {| b_id := SqlInteger 7; b_type := SqlInteger 3;
           b_fk := SqlInteger 1; b_title := SqlNull;
           b_dateAdded := SqlInteger 1000000;
           b_lastModified := SqlInteger 0 |}];
     items_annos := []; executed := [] |}.

(** A page visit whose flags are integers, as SQLite returns the values of
    the columns [hidden] and [typed]. *)
Definition integer_flags_row : PageVisitedRow :=
  {| pv_id := SqlInteger 10;
     pv_url := Some (str "https://www.google.com/");
     pv_title := SqlText (str "Google");
     pv_visit_count := SqlInteger 2;
     pv_visit_date := SqlInteger 1000000;
     pv_from_visit := SqlInteger 0;
     pv_rev_host := Some (str "moc.elgoog.www.");
     pv_hidden := SqlInteger 1;
     pv_typed := SqlInteger 1;
     pv_visit_type := SqlInteger 1 |}.

(** The handlers called on a sequence of rows, one after the other, with
    the same mediator, cache and database objects. *)
Definition handle_rows (rows : list Row) (query : option pystr) (s : Scan)
  : Scan :=
  foldl (fun s row => callback row query s) s rows.

(** A source with a visit of a place that has no URL. *)
Definition no_url_database : SQLiteDatabase :=
  {| places :=
       [{| p_id := SqlInteger 1; p_url := None; p_title := SqlNull;
           p_rev_host := Some (str "moc.elgoog.www.");
           p_visit_count := SqlInteger 1;
           p_hidden := SqlInteger 0; p_typed := SqlInteger 0 |}];
     historyvisits :=
       [{| h_id := SqlInteger 10; h_from_visit := SqlInteger 0;
           h_place_id := SqlInteger 1; h_visit_date := SqlInteger 1000000;
           h_visit_type := SqlInteger 1 |}];
     bookmarks := []; items_annos := []; executed := [] |}.





(** Both sides are mediator states built by [ProduceEventWithEventData]:
    compare them field by field. *)
Ltac produced_events :=
  unfold ProduceEventWithEventData; simpl;
  rewrite <- ?app_assoc, ?app_nil_r; reflexivity.

(** * Properties *)

(** ** The pyparsing elements *)

Section Elements.
Import BashHistoryParser.

Lemma skip_split white s :
  ∃ ws, s = ws ++ skip white s ∧ forallb white ws = true.
Proof.
  induction s as [|c s [ws [E W]]]; simpl.
  - by exists [].
  - destruct (white c) eqn:Hc.
    + exists (c :: ws). simpl. rewrite Hc, W. split; [by f_equal | done].
    + by exists [].
Qed.

Lemma skip_white_app white ws s :
  forallb white ws = true → skip white (ws ++ s) = skip white s.
Proof.
  induction ws as [|c ws IH]; simpl; [done|].
  intros [Hc W]%andb_prop. rewrite Hc. auto.
Qed.

Lemma skip_stop white c s :
  white c = false → skip white (c :: s) = c :: s.
Proof. intros H. simpl. by rewrite H. Qed.

Lemma skip_head white s c r :
  skip white s = c :: r → white c = false.
Proof.
  induction s as [|a s IH]; simpl; [done|].
  destruct (white a) eqn:Ha; [done|]. intros [= -> ->]. done.
Qed.

Lemma take_nums_split n s ds r :
  take_nums n s = (ds, r) →
  s = ds ++ r ∧ forallb is_num ds = true ∧ (length ds ≤ n)%nat.
Proof.
  revert s ds r. induction n as [|n IH]; intros [|c s] ds r; simpl;
    try (intros [= <- <-]; simpl; repeat split; lia).
  destruct (is_num c) eqn:Hc.
  - destruct (take_nums n s) as [ds' r'] eqn:E. intros [= <- <-].
    destruct (IH _ _ _ E) as (-> & Hd & Hl). simpl. rewrite Hc, Hd.
    repeat split; lia.
  - intros [= <- <-]. simpl. repeat split; lia.
Qed.

(** On a run of digits that is not followed by a digit the loop takes the
    whole run, if the bound allows it. *)
Lemma take_nums_run n ds r :
  forallb is_num ds = true → starts_with_num r = false →
  (length ds ≤ n)%nat → take_nums n (ds ++ r) = (ds, r).
Proof.
  revert ds. induction n as [|n IH]; intros [|d ds]; simpl; intros Hd Hr Hl;
    try lia.
  - by destruct r.
  - destruct r as [|c r]; [done|]. simpl in Hr. by rewrite Hr.
  - apply andb_prop in Hd as [Hd Hds]. rewrite Hd.
    rewrite IH by (done || lia). done.
Qed.

Lemma Word_nums_split min max s ds r :
  Word_nums min max s = Some (ds, r) →
  s = ds ++ r ∧ forallb is_num ds = true ∧
  (min ≤ length ds ≤ max)%nat ∧ starts_with_num r = false.
Proof.
  unfold Word_nums. destruct (take_nums max s) as [ds' r'] eqn:E.
  destruct (take_nums_split _ _ _ _ E) as (-> & Hd & Hl).
  destruct (length ds' <? min)%nat eqn:Hm; [done|].
  apply Nat.ltb_ge in Hm.
  destruct r' as [|c r'].
  - intros [= <- <-]. repeat split; (done || lia).
  - destruct (is_num c) eqn:Hc; [done|]. intros [= <- <-].
    repeat split; (done || lia).
Qed.

Lemma Word_nums_run min max ds r :
  forallb is_num ds = true → starts_with_num r = false →
  (min ≤ length ds ≤ max)%nat → Word_nums min max (ds ++ r) = Some (ds, r).
Proof.
  intros Hd Hr Hl. unfold Word_nums.
  rewrite take_nums_run by (done || lia).
  destruct (length ds <? min)%nat eqn:Hm; [apply Nat.ltb_lt in Hm; lia|].
  destruct r as [|c r]; [done|]. simpl in Hr. by rewrite Hr.
Qed.

Lemma is_num_not_white c : is_num c = true → is_white c = false.
Proof. destruct c as [[] [] [] [] [] [] [] []]; vm_compute; congruence. Qed.

Lemma _TIMESTAMP_sound s t r :
  _TIMESTAMP s = Some (t, r) →
  ∃ ws ds, s = HASH :: ws ++ ds ++ r ∧
           forallb is_white ws = true ∧ forallb is_num ds = true ∧
           (9 ≤ length ds ≤ 10)%nat ∧ starts_with_num r = false ∧
           t = int_of_nums ds.
Proof.
  destruct s as [|c s]; simpl; [done|].
  destruct (Ascii.eqb c HASH) eqn:Hc; [|done].
  apply Ascii.eqb_eq in Hc as ->.
  destruct (Word_nums 9 10 (skip is_white s)) as [[ds r']|] eqn:E; [|done].
  intros [= <- <-].
  destruct (Word_nums_split _ _ _ _ _ E) as (E' & Hd & Hl & Hr).
  destruct (skip_split is_white s) as (ws & Es & Hw).
  exists ws, ds. split; [by rewrite <- E', <- Es|].
  repeat split; (done || lia).
Qed.

Lemma _TIMESTAMP_complete s r :
  anchor_at s r → ∃ t, _TIMESTAMP s = Some (t, r).
Proof.
  intros (ws & ds & -> & Hw & Hd & Hl & Hr). simpl.
  rewrite skip_white_app by done.
  assert (skip is_white (ds ++ r) = ds ++ r) as ->.
  { destruct ds as [|d ds]; [simpl in Hl; lia|]. simpl in Hd.
    apply andb_prop in Hd as [Hd _]. simpl.
    by rewrite (is_num_not_white _ Hd). }
  rewrite Word_nums_run by done. eauto.
Qed.

Lemma _COMMAND_regex_split s m r :
  _COMMAND_regex s = (m, r) → s = m ++ r ∧ lookahead r = true.
Proof.
  revert m r. induction s as [|c s IH]; intros m r.
  - simpl. by intros [= <- <-].
  - cbn [_COMMAND_regex]. destruct (lookahead (c :: s)) eqn:L.
    + by intros [= <- <-].
    + destruct (_COMMAND_regex s) as [m' r'] eqn:E. intros [= <- <-].
      destruct (IH _ _ eq_refl) as [-> ?]. done.
Qed.

(** After the payload the end of the line is always found. *)
Lemma lineEnd_after_lookahead r :
  lookahead r = true → ∃ r', lineEnd r = Some r'.
Proof.
  destruct r as [|c r]; [by exists []|]. simpl.
  intros [Hc _]%andb_prop. apply Ascii.eqb_eq in Hc as ->.
  unfold lineEnd. simpl. eauto.
Qed.

Lemma lineEnd_suffix r r' : lineEnd r = Some r' → ∃ e, r = e ++ r'.
Proof.
  unfold lineEnd. destruct (skip_split is_white_lineEnd r) as (ws & E & _).
  destruct (skip is_white_lineEnd r) as [|c t].
  - intros [= <-]. exists r. by rewrite app_nil_r.
  - destruct (Ascii.eqb c LF); [|done]. intros [= <-].
    exists (ws ++ [c]). rewrite <- app_assoc. done.
Qed.

End Elements.

(** ** The Bash history parser *)

Section BashHistory.
Import BashHistoryParser.

(** The line grammar matches wherever its anchor does: the payload pattern
    and the end of the line never fail after it. *)
Lemma _LINE_GRAMMAR_matches s t r :
  _TIMESTAMP s = Some (t, r) → is_Some (_LINE_GRAMMAR s).
Proof.
  intros E. unfold _LINE_GRAMMAR. rewrite E.
  destruct (_COMMAND_regex (skip is_white r)) as [cmd r2] eqn:Ec.
  destruct (_COMMAND_regex_split _ _ _ Ec) as [_ L].
  destruct (lineEnd_after_lookahead _ L) as [r3 ->]. eauto.
Qed.

(** What a match of the line grammar is made of. *)
Lemma _LINE_GRAMMAR_split s st rest :
  _LINE_GRAMMAR s = Some (st, rest) →
  ∃ ws1 ds ws2 e,
    s = HASH :: ws1 ++ ds ++ ws2 ++ structure_command st ++ e ++ rest ∧
    forallb is_white ws1 = true ∧ forallb is_num ds = true ∧
    (9 ≤ length ds ≤ 10)%nat ∧ forallb is_white ws2 = true ∧
    timestamp st = int_of_nums ds.
Proof.
  unfold _LINE_GRAMMAR.
  destruct (_TIMESTAMP s) as [[t r1]|] eqn:E; [|done].
  destruct (_COMMAND_regex (skip is_white r1)) as [cmd r2] eqn:Ec.
  destruct (lineEnd r2) as [r3|] eqn:El; [|done]. intros [= <- <-].
  destruct (_TIMESTAMP_sound _ _ _ E) as (ws1 & ds & -> & W1 & D & L & _ & ->).
  destruct (skip_split is_white r1) as (ws2 & E2 & W2).
  destruct (_COMMAND_regex_split _ _ _ Ec) as [E3 _].
  destruct (lineEnd_suffix _ _ El) as [e ->].
  exists ws1, ds, ws2, e. simpl. rewrite <- E3, <- E2.
  repeat split; (done || lia).
Qed.

(** C2, at the input on which the code departs from it.  The payload of a
    record is meant to end at the anchor of the next record, whether that
    anchor has nine or ten digits.  [_TIMESTAMP] takes both widths, but the
    lookahead of [_COMMAND] only knows anchors of ten digits: in front of a
    record with a nine-digit anchor the payload does not end, and the whole
    next record becomes part of the command. *)
Theorem _COMMAND_lookahead_misses_nine_digit_anchor :
  _LINE_GRAMMAR history_ten_digits =
    Some ({| timestamp := 1609459200; structure_command := str "ls -la" |},
          nl (str "#1609459260") (str "whoami")) ∧
  _TIMESTAMP (nl (str "#999999999") (str "whoami")) =
    Some (999999999, LF :: str "whoami") ∧
  _LINE_GRAMMAR history_nine_digits =
    Some ({| timestamp := 1609459200;
             structure_command :=
               nl (str "ls -la") (nl (str "#999999999") (str "whoami")) |},
          []).
Proof. repeat split; vm_compute; reflexivity. Qed.

(** C5.  [ParseRecord] raises a [ParseError] exactly when the key is not
    [log_entry]; when it raises, the mediator is as it was, so nothing was
    produced; when it does not, one event was produced. *)
Theorem ParseRecord_raises_iff_unknown_key (m : ParserMediator) (key : pystr)
    (st : structure) :
  ((∃ message, (ParseRecord m key st).1 = Some (ParseError message))
   ↔ key ≠ str "log_entry") ∧
  (is_Some (ParseRecord m key st).1 → (ParseRecord m key st).2 = m) ∧
  ((ParseRecord m key st).1 = None →
   length (produced (ParseRecord m key st).2) = S (length (produced m))).
Proof.
  unfold ParseRecord. case_bool_decide as K; simpl.
  - split; [|split].
    + split; [intros [? [=]] | done].
    + intros [? [=]].
    + intros _. rewrite length_app. simpl. lia.
  - split; [|split]; [split; eauto | done | done].
Qed.

Lemma ParseRecord_raises_iff_unknown_key_witness :
  (ParseRecord empty_mediator (str "header")
     {| timestamp := 0; structure_command := [] |}).2 = empty_mediator.
Proof.
  apply (proj1 (proj2 (ParseRecord_raises_iff_unknown_key
                         empty_mediator (str "header")
                         {| timestamp := 0; structure_command := [] |}))).
  vm_compute. eauto.
Defined.

End BashHistory.

(** ** The verification probe *)

Section Verification.
Import BashHistoryParser.

Lemma pythonStyleComment_follows r :
  pythonStyleComment r = true ↔ comment_follows r.
Proof.
  unfold pythonStyleComment. split.
  - destruct (skip_split is_white r) as (ws & E & W).
    destruct (skip is_white r) as [|c t]; [done|].
    intros ->%Ascii.eqb_eq. by exists ws, t.
  - intros (ws & rest & -> & W). rewrite skip_white_app by done.
    rewrite skip_stop by done. done.
Qed.

Lemma to_end_of_line_suffix s : ∃ pre, s = pre ++ to_end_of_line s.
Proof.
  induction s as [|c s [pre E]]; simpl; [by exists []|].
  destruct (Ascii.eqb c LF); [by exists []|].
  exists (c :: pre). simpl. by f_equal.
Qed.

Lemma _VERIFICATION_regex_suffix bol s r :
  _VERIFICATION_regex bol s = Some r → ∃ pre, s = pre ++ r.
Proof.
  unfold _VERIFICATION_regex. destruct bol; simpl; [|done].
  destruct s as [|c1 [|c2 r2]]; [done| |].
  - destruct (Ascii.eqb c1 HASH); simpl; [done|]. intros [= <-].
    by exists [c1].
  - destruct (is_re_space c1 && negb (Ascii.eqb c2 HASH)).
    + intros [= <-]. destruct (to_end_of_line_suffix r2) as [pre E].
      exists (c1 :: c2 :: pre). simpl. by do 2 f_equal.
    + destruct (Ascii.eqb c1 HASH); simpl; [done|]. intros [= <-].
      destruct (to_end_of_line_suffix (c2 :: r2)) as [pre E].
      exists (c1 :: pre). simpl. by f_equal.
Qed.

(** A match of the verification grammar holds an anchor that no comment
    follows. *)
Lemma _VERIFICATION_GRAMMAR_anchor bol s :
  _VERIFICATION_GRAMMAR bol s = true →
  ∃ pre s' t r, s = pre ++ s' ∧ _TIMESTAMP s' = Some (t, r) ∧
                pythonStyleComment r = false.
Proof.
  unfold _VERIFICATION_GRAMMAR.
  destruct (_VERIFICATION_regex bol s) as [r1|] eqn:E1; [|done].
  destruct (_TIMESTAMP (skip is_white r1)) as [[t r2]|] eqn:E2; [|done].
  intros C%negb_true_iff.
  destruct (_VERIFICATION_regex_suffix _ _ _ E1) as [pre ->].
  destruct (skip_split is_white r1) as (ws & E & _).
  exists (pre ++ ws), (skip is_white r1), t, r2.
  rewrite <- app_assoc, <- E. done.
Qed.

Lemma scanString_anchor bol s :
  scanString bol s = true →
  ∃ pre s' t r, s = pre ++ s' ∧ _TIMESTAMP s' = Some (t, r) ∧
                pythonStyleComment r = false.
Proof.
  revert bol. induction s as [|c s IH]; intros bol; simpl; [done|].
  destruct (is_white c).
  - intros (pre & s' & t & r & -> & ?)%IH. by exists (c :: pre), s', t, r.
  - intros [G | (pre & s' & t & r & -> & ?)%IH]%orb_prop.
    + apply _VERIFICATION_GRAMMAR_anchor in G as (pre & s' & t & r & E & ?).
      by exists pre, s', t, r.
    + by exists (c :: pre), s', t, r.
Qed.

Lemma every_suffix_spec P line :
  every_suffix P line = true → ∀ pre s, line = pre ++ s → P s = true.
Proof.
  intros H pre. revert line H. induction pre as [|c pre IH]; intros line H s ->.
  - simpl in H. destruct s; by apply andb_prop in H as [? _].
  - simpl in H. apply andb_prop in H as [_ H]. by eapply IH.
Qed.

Lemma anchors_commented_reflect line :
  every_suffix anchor_commented line = true →
  ∀ pre s r, line = pre ++ s → anchor_at s r → comment_follows r.
Proof.
  intros H pre s r E A.
  pose proof (every_suffix_spec _ _ H _ _ E) as C. unfold anchor_commented in C.
  destruct (_TIMESTAMP_complete _ _ A) as [t Et]. rewrite Et in C.
  by apply pythonStyleComment_follows.
Qed.

Lemma marker_then_num_spec pre ds r :
  ds ≠ [] → forallb is_num ds = true →
  marker_then_num (pre ++ HASH :: ds ++ r) = true.
Proof.
  intros N D. induction pre as [|c pre IH]; simpl.
  - destruct ds as [|d ds]; [done|]. simpl in *.
    apply andb_prop in D as [-> _]. done.
  - rewrite IH. apply orb_true_r.
Qed.

(** C6 as it is stated fails on the code: the sample has no marker that nine
    or ten digits follow (no digit follows a marker at all), and it is
    verified, because pyparsing skips the blank between the marker and the
    word of digits. *)
Lemma VerifyStructure_marker_blank_digits :
  ¬ (∀ line,
        (∀ pre ds r, line = pre ++ HASH :: ds ++ r →
                     forallb is_num ds = true →
                     ¬ (9 ≤ length ds ≤ 10)%nat) →
        VerifyStructure line = false).
Proof.
  intros H. specialize (H marker_blank_digits).
  assert (VerifyStructure marker_blank_digits = true) as V
    by (vm_compute; reflexivity).
  rewrite H in V; [done|].
  intros pre ds r E D L.
  assert (marker_then_num marker_blank_digits = true) as M.
  { rewrite E. apply marker_then_num_spec; [|done].
    destruct ds; simpl in *; [lia | done]. }
  vm_compute in M. done.
Qed.

(** C6, amended.  A sample is not verified when each of its anchors (the
    marker, white characters or none, and nine or ten digits that no digit
    follows) is followed by a comment; in particular when it has no anchor. *)
Theorem VerifyStructure_false_without_plain_anchor (line : pystr) :
  (∀ pre s r, line = pre ++ s → anchor_at s r → comment_follows r) →
  VerifyStructure line = false.
Proof.
  intros H. destruct (VerifyStructure line) eqn:V; [|done].
  apply scanString_anchor in V as (pre & s & t & r & E & T & C).
  destruct (_TIMESTAMP_sound _ _ _ T) as (ws & ds & Es & W & D & L & R & _).
  assert (comment_follows r) as F.
  { apply (H pre s r E). by exists ws, ds. }
  apply pythonStyleComment_follows in F. congruence.
Qed.

Lemma VerifyStructure_false_without_plain_anchor_witness :
  VerifyStructure (nl (str "ls") (nl (str "#1609459260") (str "# note")))
  = false.
Proof.
  apply VerifyStructure_false_without_plain_anchor.
  apply anchors_commented_reflect. vm_compute. reflexivity.
Defined.

End Verification.

(** ** Hostname reversal *)

Section ReverseHostname.
Import FirefoxHistoryPlugin.

Lemma ends_with_dot_last h : ends_with_dot h = true ↔ last h = Some DOT.
Proof.
  unfold ends_with_dot. destruct (last h) as [c|]; [|done].
  rewrite Ascii.eqb_eq. split; congruence.
Qed.

(** On a hostname of more than one character: the reversed string, without
    its first character when the hostname ends with a dot. *)
Lemma _ReverseHostname_long h :
  (1 < length h)%nat →
  _ReverseHostname (Some h) =
    if ends_with_dot h then drop 1 (reverse h) else reverse h.
Proof.
  intros L. unfold _ReverseHostname.
  destruct h as [|c h]; [simpl in L; lia|].
  apply Nat.ltb_lt in L. rewrite L. by destruct (ends_with_dot (c :: h)).
Qed.

Lemma _ReverseHostname_short h :
  (length h ≤ 1)%nat → _ReverseHostname (Some h) = h.
Proof.
  intros L. unfold _ReverseHostname. destruct h as [|c h]; [done|].
  apply Nat.ltb_ge in L. by rewrite L.
Qed.

(** C4 as it is stated fails on the code: the hostname has no trailing dot,
    its reversal has one, and the second reversal drops it. *)
Lemma _ReverseHostname_twice_leading_dot :
  ¬ (∀ h, last h ≠ Some DOT →
          _ReverseHostname (Some (_ReverseHostname (Some h))) = h).
Proof.
  intros H.
  assert (last leading_dot_hostname ≠ Some DOT) as T
    by (vm_compute; congruence).
  apply H in T. vm_compute in T. congruence.
Qed.

(** C4, amended.  Reversing twice gives the hostname back when it has
    neither a trailing nor a leading dot; the stored form [moc.elgoog.www.]
    gives [www.google.com]; the empty string and NULL give the empty string;
    a string of one character is returned as it is. *)
Theorem _ReverseHostname_self_consistent :
  (∀ h, last h ≠ Some DOT → head h ≠ Some DOT →
        _ReverseHostname (Some (_ReverseHostname (Some h))) = h) ∧
  _ReverseHostname (Some (str "moc.elgoog.www.")) = str "www.google.com" ∧
  _ReverseHostname (Some []) = [] ∧
  _ReverseHostname None = [] ∧
  (∀ c, _ReverseHostname (Some [c]) = [c]).
Proof.
  split; [|repeat split; vm_compute; reflexivity].
  intros h T Hd.
  destruct (decide (1 < length h)%nat) as [L|L].
  - rewrite (_ReverseHostname_long h L).
    destruct (ends_with_dot h) eqn:E; [by apply ends_with_dot_last in E|].
    rewrite _ReverseHostname_long by (by rewrite length_reverse).
    destruct (ends_with_dot (reverse h)) eqn:E'.
    + apply ends_with_dot_last in E'. by rewrite last_reverse in E'.
    + apply reverse_involutive.
  - rewrite (_ReverseHostname_short h) by lia.
    apply _ReverseHostname_short. lia.
Qed.

Lemma _ReverseHostname_self_consistent_witness :
  _ReverseHostname (Some (_ReverseHostname (Some (str "www.google.com"))))
  = str "www.google.com".
Proof.
  apply (proj1 _ReverseHostname_self_consistent); vm_compute; congruence.
Defined.

End ReverseHostname.

(** ** Events of a row *)

Section RowEvents.

(** What every handler does to the mediator: it creates one event data
    object and produces the events of the timestamp columns that are set,
    which all refer to that object. *)
Lemma callback_mediator row query s :
  ∃ d,
    mediator (callback row query s) =
      {| event_data_objects := event_data_objects (mediator s) ++ [d];
         produced :=
           produced (mediator s)
           ++ events_for (length (event_data_objects (mediator s)))
                         (timestamp_columns row) |}.
Proof.
  destruct row as [r|r|r|r|r]; simpl.
  - unfold FirefoxHistoryPlugin.ParsePageVisitedRow.
    destruct (FirefoxHistoryPlugin.page_visited_extras r (cache s) (database s))
      as [[extras c] d]. simpl. eexists.
    unfold events_for. simpl. destruct (py_truthy (pv_visit_date r));
      produced_events.
  - eexists. unfold FirefoxHistoryPlugin.ParseBookmarkRow, events_for. simpl.
    destruct (py_truthy (bm_dateAdded r)), (py_truthy (bm_lastModified r));
      produced_events.
  - eexists.
    unfold FirefoxHistoryPlugin.ParseBookmarkAnnotationRow, events_for. simpl.
    destruct (py_truthy (an_dateAdded r)), (py_truthy (an_lastModified r));
      produced_events.
  - eexists.
    unfold FirefoxHistoryPlugin.ParseBookmarkFolderRow, events_for. simpl.
    destruct (py_truthy (fo_dateAdded r)), (py_truthy (fo_lastModified r));
      produced_events.
  - eexists.
    unfold FirefoxDownloadsPlugin.ParseDownloadsRow, events_for. simpl.
    destruct (py_truthy (dl_startTime r)), (py_truthy (dl_endTime r));
      produced_events.
Qed.

Lemma timestamp_columns_roles row : NoDup (timestamp_columns row).*1.
Proof.
  destruct row; simpl; by apply (bool_decide_unpack _).
Qed.

Lemma py_truthy_integer v :
  integer_or_null v = true →
  py_truthy v = true ↔ v ≠ SqlNull ∧ v ≠ SqlInteger 0.
Proof.
  destruct v as [|z|t]; simpl; [intros _ | intros _ | done].
  - split; [done | by intros [? _]].
  - rewrite negb_true_iff, Z.eqb_neq. split.
    + intros H. split; congruence.
    + intros [_ H] ->. by apply H.
Qed.

Lemma elem_of_events_for e r ref columns :
  (e, r) ∈ events_for ref columns ↔
  r = ref ∧ ∃ ts, (timestamp_desc e, ts) ∈ columns ∧ py_truthy ts = true ∧
                  date_time e = PosixTimeInMicroseconds ts.
Proof.
  unfold events_for. rewrite list_elem_of_fmap. split.
  - intros ([role ts] & [= -> ->] & [I T]%list_elem_of_In%filter_In).
    simpl in *. split; [done|]. exists ts.
    by rewrite list_elem_of_In.
  - intros (-> & ts & I & T & D). exists (timestamp_desc e, ts). split.
    + destruct e as [dt role]. simpl in *. by subst.
    + apply list_elem_of_In, filter_In. by rewrite <- list_elem_of_In.
Qed.

(** C1.  For a row whose timestamp columns hold integers or NULL, and each
    of the five row handlers: an event with a timestamp role is produced if
    and only if the raw timestamp column of that role is neither NULL nor
    zero; the number of events produced for the row is the number of its
    timestamp columns that are true; and all these events refer to one event
    data object, the one the handler created for the row. *)
Theorem row_events_iff_timestamp_set (row : Row) (query : option pystr)
    (s : Scan) :
  Forall (fun c => integer_or_null c.2 = true) (timestamp_columns row) →
  ∃ evs d,
    event_data_objects (mediator (callback row query s)) =
      event_data_objects (mediator s) ++ [d] ∧
    produced (mediator (callback row query s)) = produced (mediator s) ++ evs ∧
    (∀ role ts,
        (role, ts) ∈ timestamp_columns row →
        (∃ e r, (e, r) ∈ evs ∧ timestamp_desc e = role)
        ↔ ts ≠ SqlNull ∧ ts ≠ SqlInteger 0) ∧
    (∀ e r, (e, r) ∈ evs → timestamp_desc e ∈ (timestamp_columns row).*1) ∧
    length evs =
      length (List.filter (fun c => py_truthy c.2) (timestamp_columns row)) ∧
    (∀ e r, (e, r) ∈ evs → r = length (event_data_objects (mediator s))).
Proof.
  intros N. destruct (callback_mediator row query s) as [d ->]. simpl.
  exists (events_for (length (event_data_objects (mediator s)))
                     (timestamp_columns row)), d.
  split; [done|]. split; [done|]. split; [|split; [|split]].
  - intros role ts I.
    rewrite <- py_truthy_integer
      by (by apply (proj1 (Forall_forall _ _) N (role, ts))).
    split.
    + intros (e & r & (_ & ts' & I' & T & _)%elem_of_events_for & <-).
      assert (ts' = ts) as <-; [|done].
      pose proof (timestamp_columns_roles row) as ND.
      destruct (proj1 (list_elem_of_lookup _ _) I) as [i Hi].
      destruct (proj1 (list_elem_of_lookup _ _) I') as [j Hj].
      assert (i = j) as ->.
      { apply (NoDup_lookup _ i j (timestamp_desc e) ND);
          rewrite list_lookup_fmap; [by rewrite Hi | by rewrite Hj]. }
      congruence.
    + intros T.
      exists (DateTimeValuesEvent (PosixTimeInMicroseconds ts) role),
             (length (event_data_objects (mediator s))).
      split; [|done]. apply elem_of_events_for. split; [done|].
      exists ts. done.
  - intros e r (_ & ts & I & _)%elem_of_events_for.
    apply list_elem_of_fmap. by exists (timestamp_desc e, ts).
  - unfold events_for. by rewrite length_fmap.
  - by intros e r [-> _]%elem_of_events_for.
Qed.

Lemma row_events_iff_timestamp_set_witness :
  length (produced (mediator (callback added_only_row None empty_scan)))
  = 1%nat.
Proof.
  destruct (row_events_iff_timestamp_set added_only_row None empty_scan)
    as (evs & d & _ & -> & _ & _ & L & _).
  - repeat constructor.
  - rewrite length_app, L. reflexivity.
Defined.

End RowEvents.

(** ** The URL cache *)

Section UrlCache.
Import FirefoxHistoryPlugin.

Lemma foldl_insert_non_empty (rows : list UrlCacheRow)
    (m : gmap sql_value (option pystr * option pystr)) :
  m ≠ ∅ ∨ rows ≠ [] →
  foldl (fun m r => <[uc_id r := (uc_url r, uc_rev_host r)]> m) m rows ≠ ∅.
Proof.
  revert m. induction rows as [|r rows IH]; intros m [H|H]; simpl; try done.
  - apply IH. left. apply insert_non_empty.
  - apply IH. left. apply insert_non_empty.
Qed.

Lemma url_mapping_non_empty rows : rows ≠ [] → url_mapping rows ≠ ∅.
Proof. intros H. apply foldl_insert_non_empty. by right. Qed.

(** Once a mapping with entries is stored, [_GetUrl] reads it and leaves the
    cache and the database as they are. *)
Lemma _GetUrl_built url_id c d mp :
  GetResults "url" c = Some mp → mp ≠ ∅ →
  (_GetUrl url_id c d).1.2 = c ∧ (_GetUrl url_id c d).2 = d.
Proof.
  intros G N. unfold _GetUrl. rewrite G. simpl.
  rewrite bool_decide_eq_false_2 by done. simpl.
  destruct (default (Some [], Some []) (mp !! url_id)) as [url rh].
  by destruct (negb (py_truthy (sql_text url))).
Qed.

(** Without a stored mapping, [_GetUrl] runs the cache query once and stores
    the mapping of its rows. *)
Lemma _GetUrl_unbuilt url_id c d :
  GetResults "url" c = None →
  (_GetUrl url_id c d).1.2 =
    <["url" := url_mapping (url_cache_rows d)]> c ∧
  (_GetUrl url_id c d).2 = run URL_CACHE_QUERY d.
Proof.
  intros G. unfold _GetUrl. rewrite G. simpl.
  unfold CacheQueryResults, GetResults. rewrite lookup_insert_eq. simpl.
  fold (url_mapping (url_cache_rows d)).
  destruct (default (Some [], Some [])
              (url_mapping (url_cache_rows d) !! url_id)) as [url rh].
  by destruct (negb (py_truthy (sql_text url))).
Qed.

Lemma same_tables_result_rows q d d' :
  same_tables d d' → result_rows q d = result_rows q d'.
Proof.
  intros (P & H & B & A). destruct q; simpl; [| | | |done].
  - unfold page_visited_rows, places_historyvisits. by rewrite P, H.
  - unfold bookmark_rows. by rewrite P, B.
  - unfold bookmark_annotation_rows. by rewrite P, B, A.
  - unfold bookmark_folder_rows. by rewrite B.
Qed.

Lemma same_tables_url_cache_rows d d' :
  same_tables d d' → url_cache_rows d = url_cache_rows d'.
Proof.
  intros (P & H & _). unfold url_cache_rows, places_historyvisits.
  by rewrite P, H.
Qed.

Lemma executions_run q q' d :
  executions q (run q' d) =
    (executions q d + if bool_decide (q' = q) then 1 else 0)%nat.
Proof.
  unfold executions, run. simpl. rewrite filter_app, length_app. f_equal.
  case_bool_decide as E.
  - by rewrite filter_cons_True.
  - by rewrite filter_cons_False.
Qed.

Lemma _GetUrl_url_cache_state d0 url_id s :
  url_cache_rows d0 ≠ [] → url_cache_state d0 s →
  url_cache_state d0
    {| mediator := mediator s;
       cache := (_GetUrl url_id (cache s) (database s)).1.2;
       database := (_GetUrl url_id (cache s) (database s)).2 |}.
Proof.
  intros R [T [[C E] | (mp & C & N & E)]].
  - destruct (_GetUrl_unbuilt url_id (cache s) (database s) C) as [-> ->].
    split; [done|]. right. simpl.
    exists (url_mapping (url_cache_rows (database s))).
    rewrite lookup_insert_eq. split; [done|]. split.
    + apply url_mapping_non_empty.
      by rewrite (same_tables_url_cache_rows _ _ T).
    + rewrite executions_run, E. rewrite bool_decide_eq_true_2 by done. lia.
  - destruct (_GetUrl_built url_id (cache s) (database s) mp C N) as [-> ->].
    split; [done|]. right. by exists mp.
Qed.

Lemma callback_url_cache_state d0 row query s :
  (∀ r, row = page_visited_row r → url_cache_rows d0 ≠ []) →
  url_cache_state d0 s → url_cache_state d0 (callback row query s).
Proof.
  intros R I. destruct row as [r| | | |]; try exact I.
  specialize (R r eq_refl). simpl.
  unfold ParsePageVisitedRow, page_visited_extras.
  destruct (py_truthy (pv_from_visit r)).
  - pose proof (_GetUrl_url_cache_state d0 (pv_from_visit r) s R I) as I'.
    destruct (_GetUrl (pv_from_visit r) (cache s) (database s))
      as [[url c] d]. exact I'.
  - exact I.
Qed.

Lemma foldl_callback_url_cache_state d0 rows query s :
  (∀ row r, row ∈ rows → row = page_visited_row r → url_cache_rows d0 ≠ []) →
  url_cache_state d0 s →
  url_cache_state d0 (foldl (fun s row => callback row query s) s rows).
Proof.
  revert s. induction rows as [|row rows IH]; intros s R I; simpl; [done|].
  apply IH.
  - intros row' r ? ?. apply (R row' r); [by right | done].
  - apply callback_url_cache_state; [|done].
    intros r ?. apply (R row r); [by left | done].
Qed.

(** A row of the page visit query is a row of the join, and so is a row of
    the cache query. *)
Lemma page_visited_row_url_cache_rows d row r :
  row ∈ result_rows PAGE_VISITED_QUERY d → row = page_visited_row r →
  url_cache_rows d ≠ [].
Proof.
  simpl. unfold page_visited_rows, url_cache_rows.
  intros (x & _ & (y & _ & I)%list_elem_of_fmap)%list_elem_of_fmap _.
  destruct (places_historyvisits d); [by apply elem_of_nil in I | done].
Qed.

Lemma ParseQuery_url_cache_state d0 s q :
  q ∈ QUERIES → url_cache_state d0 s → url_cache_state d0 (ParseQuery s q).
Proof.
  intros Q I. unfold ParseQuery. destruct I as [T I].
  apply foldl_callback_url_cache_state.
  - intros row r Hrow ->.
    rewrite <- (same_tables_url_cache_rows _ _ T).
    destruct q.
    + by eapply (page_visited_row_url_cache_rows _ (page_visited_row r)).
    + by apply list_elem_of_fmap in Hrow as (? & [=] & _).
    + by apply list_elem_of_fmap in Hrow as (? & [=] & _).
    + by apply list_elem_of_fmap in Hrow as (? & [=] & _).
    + by apply elem_of_nil in Hrow.
  - split; [done|]. simpl. rewrite executions_run.
    assert (bool_decide (q = URL_CACHE_QUERY) = false) as ->.
    { apply bool_decide_eq_false_2. intros ->. unfold QUERIES in Q.
      by repeat (apply elem_of_cons in Q as [Q|Q]; [done|]);
        apply elem_of_nil in Q. }
    by rewrite Nat.add_0_r.
Qed.

Lemma Process_url_cache_state m d0 : url_cache_state d0 (Process m d0).
Proof.
  unfold Process.
  assert (∀ qs s, (∀ q, q ∈ qs → q ∈ QUERIES) → url_cache_state d0 s →
                  url_cache_state d0 (foldl ParseQuery s qs)) as F.
  { induction qs as [|q qs IH]; intros s Q I; simpl; [done|].
    apply IH; [intros ? ?; apply Q; by right|].
    apply ParseQuery_url_cache_state; [apply Q; by left | done]. }
  apply F; [done|]. split; [done|]. left. done.
Qed.

(** C7.  After one invocation of the plugin on one source, whatever the
    number of rows that called [_GetUrl]: either nothing is stored under
    [url] and the cache query was not run, or a mapping with entries is
    stored and the cache query was run once; so it was run at most once.
    And a call of [_GetUrl] that finds the stored mapping reads it: it
    leaves the cache as it is and runs no query. *)
Theorem url_cache_built_at_most_once (parser_mediator : ParserMediator)
    (db : SQLiteDatabase) :
  ((cache (Process parser_mediator db) !! "url" = None ∧
    executions URL_CACHE_QUERY (database (Process parser_mediator db))
    = executions URL_CACHE_QUERY db) ∨
   (∃ mp, cache (Process parser_mediator db) !! "url" = Some mp ∧ mp ≠ ∅ ∧
          executions URL_CACHE_QUERY (database (Process parser_mediator db))
          = S (executions URL_CACHE_QUERY db))) ∧
  (executions URL_CACHE_QUERY (database (Process parser_mediator db))
   ≤ S (executions URL_CACHE_QUERY db))%nat ∧
  (∀ url_id c d mp,
      GetResults "url" c = Some mp → mp ≠ ∅ →
      (_GetUrl url_id c d).1.2 = c ∧ (_GetUrl url_id c d).2 = d).
Proof.
  destruct (Process_url_cache_state parser_mediator db) as [_ I].
  split; [exact I|]. split.
  - destruct I as [[_ ->] | (mp & _ & _ & ->)]; lia.
  - apply _GetUrl_built.
Qed.

Lemma url_cache_built_at_most_once_witness :
  (executions URL_CACHE_QUERY
     (database (Process empty_mediator two_visits_database)) ≤ 1)%nat ∧
  (_GetUrl (SqlInteger 10)
     {["url" := {[SqlInteger 10 := (Some (str "https://www.google.com/"),
                                    Some (str "moc.elgoog.www."))]}]}
     two_visits_database).2 = two_visits_database.
Proof.
  split.
  - exact (proj1 (proj2 (url_cache_built_at_most_once
                           empty_mediator two_visits_database))).
  - eapply (proj2 (proj2 (url_cache_built_at_most_once
                            empty_mediator two_visits_database))).
    + apply lookup_singleton_eq.
    + apply insert_non_empty.
Defined.

(** The guard of [_GetUrl] is the truth value of the stored mapping: on a
    source whose cache query has no rows (none of whose rows, then, is a
    page visit that calls [_GetUrl]) a call would find the stored mapping
    empty and run the query again. *)
Remark _GetUrl_guard_is_truth_value :
  executions URL_CACHE_QUERY
    (_GetUrl (SqlInteger 1)
       (_GetUrl (SqlInteger 1) ∅ empty_database).1.2
       (_GetUrl (SqlInteger 1) ∅ empty_database).2).2 = 2%nat.
Proof. vm_compute. reflexivity. Qed.

End UrlCache.

(** ** Page visits *)

Section PageVisits.
Import FirefoxHistoryPlugin.

Lemma page_visited_extras_list row c d :
  (page_visited_extras row c d).1.1 =
    (if py_truthy (pv_from_visit row)
     then [str "visited from: " ++ (_GetUrl (pv_from_visit row) c d).1.1]
     else [])
    ++ flag_markers row.
Proof.
  unfold page_visited_extras, flag_markers.
  destruct (py_truthy (pv_from_visit row)).
  - destruct (_GetUrl (pv_from_visit row) c d) as [[url c'] d']. simpl.
    by repeat case_bool_decide.
  - simpl. by repeat case_bool_decide.
Qed.

(** The event data object [ParsePageVisitedRow] creates, and the event it
    produces when the visit date is set. *)
Lemma ParsePageVisitedRow_mediator m row c d query :
  (ParsePageVisitedRow m row c d query).1.1 =
    {| event_data_objects :=
         event_data_objects m
         ++ [PageVisited
               {| extra :=
                    if bool_decide ((page_visited_extras row c d).1.1 = [])
                    then None else Some (page_visited_extras row c d).1.1;
                  visited_host := _ReverseHostname (pv_rev_host row);
                  visited_offset := pv_id row;
                  visited_query := query;
                  visited_title := pv_title row;
                  visited_url := sql_text (pv_url row);
                  visited_visit_count := pv_visit_count row;
                  visited_visit_type := pv_visit_type row |}];
       produced :=
         produced m
         ++ events_for (length (event_data_objects m))
                       [(PAGE_VISITED, pv_visit_date row)] |}.
Proof.
  unfold ParsePageVisitedRow.
  destruct (page_visited_extras row c d) as [[extras c'] d']. simpl.
  unfold events_for. simpl.
  destruct (py_truthy (pv_visit_date row)); produced_events.
Qed.

Lemma flag_markers_non_empty row : flag_markers row ≠ [].
Proof.
  unfold flag_markers. intros E. apply app_eq_nil in E as [_ E]. done.
Qed.

Lemma page_visited_extras_non_empty row c d :
  (page_visited_extras row c d).1.1 ≠ [].
Proof.
  rewrite page_visited_extras_list. intros E.
  apply app_eq_nil in E as [_ E]. by apply flag_markers_non_empty in E.
Qed.

Lemma ParsePageVisitedRow_created_extra m row c d query :
  created_extra (ParsePageVisitedRow m row c d query).1.1 =
    Some (page_visited_extras row c d).1.1.
Proof.
  rewrite ParsePageVisitedRow_mediator. unfold created_extra. simpl.
  rewrite last_snoc. simpl.
  by rewrite bool_decide_eq_false_2 by apply page_visited_extras_non_empty.
Qed.

(** C8.  When the url id has no entry in the mapping of the cache (as the
    call finds or builds it), [_GetUrl] returns the empty string; and the
    handler of a row that refers to such an id goes on: the annotation list
    starts with the visited-from text without a URL, the event data object
    is created and the event of the visit date is produced. *)
Theorem _GetUrl_miss_returns_empty (url_id : sql_value) (c : SQLiteCache)
    (d : SQLiteDatabase) :
  (∀ mp, GetResults "url" (_GetUrl url_id c d).1.2 = Some mp →
         mp !! url_id = None →
         (_GetUrl url_id c d).1.1 = []) ∧
  (∀ mp m row query,
      GetResults "url" (_GetUrl url_id c d).1.2 = Some mp →
      mp !! url_id = None →
      pv_from_visit row = url_id → py_truthy url_id = true →
      created_extra (ParsePageVisitedRow m row c d query).1.1 =
        Some (str "visited from: " :: flag_markers row) ∧
      produced (ParsePageVisitedRow m row c d query).1.1 =
        produced m ++ events_for (length (event_data_objects m))
                                 [(PAGE_VISITED, pv_visit_date row)]).
Proof.
  assert (∀ mp, GetResults "url" (_GetUrl url_id c d).1.2 = Some mp →
                mp !! url_id = None → (_GetUrl url_id c d).1.1 = []) as Miss.
  { intros mp. unfold _GetUrl.
    destruct (negb (results_truthy (GetResults "url" c))) eqn:B; simpl.
    - destruct (GetResults "url" (CacheQueryResults (url_cache_rows d) "url" c))
        as [mp'|] eqn:G; simpl.
      + destruct (mp' !! url_id) as [[url rh]|] eqn:L; simpl.
        * destruct (negb (py_truthy (sql_text url))); simpl;
            rewrite G; intros [= <-] H;
            by pose proof (eq_trans (eq_sym L) H).
        * done.
      + done.
    - destruct (GetResults "url" c) as [mp'|] eqn:G; simpl; [|done].
      destruct (mp' !! url_id) as [[url rh]|] eqn:L; simpl; [|done].
      destruct (negb (py_truthy (sql_text url))); simpl;
        rewrite G; intros [= <-] H;
            by pose proof (eq_trans (eq_sym L) H). }
  split; [exact Miss|].
  intros mp m row query G L F T. split.
  - rewrite ParsePageVisitedRow_created_extra, page_visited_extras_list.
    rewrite F, T, (Miss mp G L). by rewrite app_nil_r.
  - by rewrite ParsePageVisitedRow_mediator.
Qed.

Lemma _GetUrl_miss_returns_empty_witness :
  (_GetUrl (SqlInteger 99) ∅ two_visits_database).1.1 = [].
Proof.
  eapply (proj1 (_GetUrl_miss_returns_empty
                   (SqlInteger 99) ∅ two_visits_database)).
  - vm_compute. reflexivity.
  - vm_compute. reflexivity.
Defined.

(** C9 as it is stated fails on the code: the column [from_visit] of the row
    is not NULL, but it is 0, which is false in the condition of the handler,
    and the annotation list has the two markers only. *)
Lemma ParsePageVisitedRow_from_visit_zero :
  ¬ (∀ m row c d query,
        pv_hidden row = SqlText (str "1") →
        pv_typed row = SqlText (str "0") →
        pv_from_visit row ≠ SqlNull →
        created_extra (ParsePageVisitedRow m row c d query).1.1 =
          Some [str "visited from: " ++ (_GetUrl (pv_from_visit row) c d).1.1;
                str "(url hidden)"; str "(URL not typed directly)"]).
Proof.
  intros H.
  specialize (H empty_mediator first_visit_row ∅ two_visits_database None
                eq_refl eq_refl).
  assert (created_extra
            (ParsePageVisitedRow empty_mediator first_visit_row ∅
               two_visits_database None).1.1
          = Some [str "(url hidden)"; str "(URL not typed directly)"]) as E
    by (rewrite ParsePageVisitedRow_created_extra, page_visited_extras_list;
        reflexivity).
  assert (pv_from_visit first_visit_row ≠ SqlNull) as N by done.
  apply H in N. pose proof (eq_trans (eq_sym E) N) as C.
  apply (f_equal (fun o => length (default [] o))) in C. simpl in C. lia.
Qed.

(** C9, amended.  For a page visit row with [hidden] equal to ['1'], [typed]
    equal to ['0'] and a [from_visit] that is true in a condition (neither
    NULL nor 0), the annotation list of the event data is, in this order,
    the visited-from text, the hidden marker and the not-typed marker. *)
Theorem ParsePageVisitedRow_annotation_order (m : ParserMediator)
    (row : PageVisitedRow) (c : SQLiteCache) (d : SQLiteDatabase)
    (query : option pystr) :
  pv_hidden row = SqlText (str "1") →
  pv_typed row = SqlText (str "0") →
  py_truthy (pv_from_visit row) = true →
  created_extra (ParsePageVisitedRow m row c d query).1.1 =
    Some [str "visited from: " ++ (_GetUrl (pv_from_visit row) c d).1.1;
          str "(url hidden)"; str "(URL not typed directly)"].
Proof.
  intros H T F.
  rewrite ParsePageVisitedRow_created_extra, page_visited_extras_list.
  unfold flag_markers. rewrite F, H, T. reflexivity.
Qed.

Lemma ParsePageVisitedRow_annotation_order_witness :
  created_extra
    (ParsePageVisitedRow empty_mediator second_visit_row ∅
       two_visits_database None).1.1 =
    Some [str "visited from: https://www.google.com/ (www.google.com)";
          str "(url hidden)"; str "(URL not typed directly)"].
Proof.
  rewrite (ParsePageVisitedRow_annotation_order
             empty_mediator second_visit_row ∅ two_visits_database None
             eq_refl eq_refl eq_refl).
  vm_compute. reflexivity.
Defined.

(** C10.  For every page visit row the handler creates a page visit event
    data object whose [extra] attribute is set to a list that is not empty
    and ends with one of the two markers of the typed check; every event the
    handler produces refers to that object. *)
Theorem ParsePageVisitedRow_extra_non_empty (m : ParserMediator)
    (row : PageVisitedRow) (c : SQLiteCache) (d : SQLiteDatabase)
    (query : option pystr) :
  ∃ data extras,
    event_data_objects (ParsePageVisitedRow m row c d query).1.1 =
      event_data_objects m ++ [PageVisited data] ∧
    extra data = Some extras ∧ extras ≠ [] ∧
    (last extras = Some (str "(directly typed)") ∨
     last extras = Some (str "(URL not typed directly)")) ∧
    ∀ e ref,
      (e, ref) ∈ drop (length (produced m))
                      (produced (ParsePageVisitedRow m row c d query).1.1) →
      ref = length (event_data_objects m).
Proof.
  rewrite ParsePageVisitedRow_mediator. simpl.
  eexists _, (page_visited_extras row c d).1.1. split; [reflexivity|]. simpl.
  rewrite bool_decide_eq_false_2 by apply page_visited_extras_non_empty.
  split; [done|]. split; [apply page_visited_extras_non_empty|]. split.
  - rewrite page_visited_extras_list. unfold flag_markers.
    rewrite !app_assoc, last_snoc. case_bool_decide; [by left | by right].
  - intros e ref. rewrite drop_app_length.
    by intros [-> _]%elem_of_events_for.
Qed.

End PageVisits.

(** * Further properties of the code *)

(** ** The payload pattern and the line grammar *)

Section LineGrammar.
Import BashHistoryParser.

Lemma take_nums_exact ds r :
  forallb is_num ds = true → take_nums (length ds) (ds ++ r) = (ds, r).
Proof.
  induction ds as [|d ds IH]; simpl; [done|].
  intros [-> D]%andb_prop. by rewrite IH.
Qed.

Lemma lookahead_anchor ds r :
  forallb is_num ds = true → length ds = 10%nat →
  lookahead (LF :: HASH :: ds ++ r) = true.
Proof.
  intros D L. unfold lookahead.
  change (Ascii.eqb LF LF) with true. change (Ascii.eqb HASH HASH) with true.
  cbn [andb]. rewrite <- L, take_nums_exact by done. apply Nat.eqb_refl.
Qed.

Lemma _COMMAND_regex_shortest s m r :
  _COMMAND_regex s = (m, r) →
  ∀ a b, m = a ++ b → b ≠ [] → lookahead (b ++ r) = false.
Proof.
  revert m r. induction s as [|c s IH]; intros m r.
  - simpl. intros [= <- <-] a b E N. by destruct a, b.
  - cbn [_COMMAND_regex]. destruct (lookahead (c :: s)) eqn:L.
    + intros [= <- <-] a b E N. by destruct a, b.
    + destruct (_COMMAND_regex s) as [m' r'] eqn:E. intros [= <- <-] a b Eq N.
      destruct (_COMMAND_regex_split _ _ _ E) as [Es _].
      destruct a as [|x a]; simpl in Eq.
      * subst b. simpl. by rewrite <- Es.
      * injection Eq as -> Eq. by eapply IH.
Qed.

Lemma _COMMAND_regex_payload m r :
  no_boundary_inside m r = true → lookahead r = true →
  _COMMAND_regex (m ++ r) = (m, r).
Proof.
  induction m as [|c m IH]; intros N L.
  - simpl. destruct r; simpl in *; by rewrite ?L.
  - cbn [no_boundary_inside] in N.
    apply andb_prop in N as [B%negb_true_iff N].
    change ((c :: m) ++ r) with (c :: (m ++ r)) in *.
    cbn [_COMMAND_regex]. rewrite B, IH by done. done.
Qed.

(** X1.  The command the payload pattern matches is the shortest text after
    which the lookahead holds: it is a prefix of the input, the lookahead
    holds after it and at no position inside it; so a command never holds a
    line feed followed by the marker and ten digits. *)
Theorem _COMMAND_regex_shortest_match (s : pystr) :
  s = (_COMMAND_regex s).1 ++ (_COMMAND_regex s).2 ∧
  lookahead (_COMMAND_regex s).2 = true ∧
  (∀ a b, (_COMMAND_regex s).1 = a ++ b → b ≠ [] →
          lookahead (b ++ (_COMMAND_regex s).2) = false) ∧
  (∀ a ds b, forallb is_num ds = true → length ds = 10%nat →
             (_COMMAND_regex s).1 ≠ a ++ LF :: HASH :: ds ++ b).
Proof.
  destruct (_COMMAND_regex s) as [m r] eqn:E. simpl.
  destruct (_COMMAND_regex_split _ _ _ E) as [Es L].
  pose proof (_COMMAND_regex_shortest _ _ _ E) as Sh.
  repeat split; [done | done | done |].
  intros a ds b D Ld Em.
  specialize (Sh a (LF :: HASH :: ds ++ b) Em ltac:(done)).
  simpl in Sh. rewrite <- app_assoc in Sh.
  pose proof (lookahead_anchor ds (b ++ r) D Ld) as A. simpl in A. congruence.
Qed.

(** X2.  A record as Bash writes it is read back: the marker, nine or ten
    digits, a line feed, a command that does not start with a white
    character and has no boundary inside, and then the end of the text or
    the next boundary.  The parse results are the number of the digits and
    the command, and the text that remains starts after the line feed that
    ends the record. *)
Theorem _LINE_GRAMMAR_reads_record (ds : pystr) (c : ascii) (cs tail : pystr) :
  forallb is_num ds = true → (9 ≤ length ds ≤ 10)%nat →
  is_white c = false →
  no_boundary_inside (c :: cs) tail = true → lookahead tail = true →
  _LINE_GRAMMAR (HASH :: ds ++ LF :: (c :: cs) ++ tail) =
    Some ({| timestamp := int_of_nums ds; structure_command := c :: cs |},
          drop 1 tail).
Proof.
  intros D L W N T. unfold _LINE_GRAMMAR, _TIMESTAMP.
  change (Ascii.eqb HASH HASH) with true. cbn [andb].
  assert (skip is_white (ds ++ LF :: (c :: cs) ++ tail)
          = ds ++ LF :: (c :: cs) ++ tail) as ->.
  { destruct ds as [|d ds]; [simpl in L; lia|]. simpl in D.
    apply andb_prop in D as [D _]. simpl.
    by rewrite (is_num_not_white _ D). }
  rewrite Word_nums_run by done.
  assert (skip is_white (LF :: (c :: cs) ++ tail) = (c :: cs) ++ tail) as ->.
  { simpl. by rewrite W. }
  rewrite _COMMAND_regex_payload by done.
  destruct tail as [|t tail]; [done|].
  simpl in T. apply andb_prop in T as [->%Ascii.eqb_eq _]. done.
Qed.

Lemma _LINE_GRAMMAR_reads_record_witness :
  _LINE_GRAMMAR history_ten_digits =
    Some ({| timestamp := 1609459200; structure_command := str "ls -la" |},
          nl (str "#1609459260") (str "whoami")).
Proof.
  apply (_LINE_GRAMMAR_reads_record
           (str "1609459200") "l"%char (str "s -la")
           (LF :: nl (str "#1609459260") (str "whoami")));
    vm_compute; (reflexivity || lia).
Defined.

(** X3.  A record without a payload swallows the record after it: when only
    white characters stand between the digits of an anchor and the next
    marker, the line feed the lookahead needs is skipped with them, and the
    command starts with that marker. *)
Theorem _LINE_GRAMMAR_empty_payload (ds ws t : pystr) :
  forallb is_num ds = true → (9 ≤ length ds ≤ 10)%nat →
  forallb is_white ws = true →
  ∃ more rest,
    _LINE_GRAMMAR (HASH :: ds ++ ws ++ HASH :: t) =
      Some ({| timestamp := int_of_nums ds;
               structure_command := HASH :: more |}, rest).
Proof.
  intros D L W.
  assert (starts_with_num (ws ++ HASH :: t) = false) as R.
  { destruct ws as [|w ws]; [reflexivity|]. simpl in *.
    apply andb_prop in W as [W _].
    destruct (is_num w) eqn:Nw; [|done].
    apply is_num_not_white in Nw. congruence. }
  unfold _LINE_GRAMMAR, _TIMESTAMP.
  change (Ascii.eqb HASH HASH) with true. cbn [andb].
  assert (skip is_white (ds ++ ws ++ HASH :: t) = ds ++ ws ++ HASH :: t) as ->.
  { destruct ds as [|d ds]; [simpl in L; lia|]. simpl in D.
    apply andb_prop in D as [D _]. simpl.
    by rewrite (is_num_not_white _ D). }
  rewrite Word_nums_run by done.
  rewrite skip_white_app by done. rewrite skip_stop by done.
  cbn [_COMMAND_regex]. change (lookahead (HASH :: t)) with false. cbv iota.
  destruct (_COMMAND_regex t) as [m r] eqn:Ec.
  destruct (_COMMAND_regex_split _ _ _ Ec) as [_ La].
  destruct (lineEnd_after_lookahead _ La) as [r3 ->]. eauto.
Qed.

Lemma _LINE_GRAMMAR_empty_payload_witness :
  ∃ more rest,
    _LINE_GRAMMAR (HASH :: str "1609459200" ++ [LF]
                   ++ HASH :: str "1609459260" ++ LF :: str "whoami") =
      Some ({| timestamp := int_of_nums (str "1609459200");
               structure_command := HASH :: more |}, rest).
Proof.
  apply (_LINE_GRAMMAR_empty_payload (str "1609459200") [LF]);
    vm_compute; (reflexivity || lia).
Defined.

(** X4.  Every match of the line grammar takes at least the ten characters
    of an anchor from the text, so a scan that goes on after a match
    progresses; the text that remains is a suffix of the input; and the
    command of the match does not start with one of the four characters
    pyparsing skips in front of a token (space, tabulation, line feed,
    carriage return): those in front of a payload are dropped.  (A form feed
    or a vertical tabulation is not skipped and may start a command.) *)
Theorem _LINE_GRAMMAR_progress (s : pystr) (st : structure) (rest : pystr) :
  _LINE_GRAMMAR s = Some (st, rest) →
  (length rest + 10 ≤ length s)%nat ∧
  (∃ taken, s = taken ++ rest) ∧
  (∀ c cs, structure_command st = c :: cs → is_white c = false).
Proof.
  intros E.
  destruct (_LINE_GRAMMAR_split _ _ _ E)
    as (ws1 & ds & ws2 & e & Es & _ & _ & L & _ & _).
  split; [|split].
  - rewrite Es. simpl. rewrite !length_app. lia.
  - exists (HASH :: ws1 ++ ds ++ ws2 ++ structure_command st ++ e).
    rewrite Es. simpl. by rewrite <- !app_assoc.
  - revert E. unfold _LINE_GRAMMAR.
    destruct (_TIMESTAMP s) as [[t r1]|]; [|done].
    destruct (skip is_white r1) as [|x r] eqn:Sk.
    + simpl. by intros [= <- <-].
    + pose proof (skip_head _ _ _ _ Sk) as Wx.
      cbn [_COMMAND_regex]. destruct (lookahead (x :: r)).
      * destruct (lineEnd (x :: r)); [|done]. by intros [= <- <-].
      * destruct (_COMMAND_regex r) as [m r2].
        destruct (lineEnd r2); [|done]. intros [= <- <-] c cs [= <- <-]. done.
Qed.

Lemma _LINE_GRAMMAR_progress_witness :
  (length (nl (str "#1609459260") (str "whoami")) + 10
   ≤ length history_ten_digits)%nat.
Proof.
  apply (_LINE_GRAMMAR_progress history_ten_digits
           {| timestamp := 1609459200; structure_command := str "ls -la" |}).
  vm_compute. reflexivity.
Defined.

End LineGrammar.

(** ** The positions the verification probe tries *)

Section Probe.
Import BashHistoryParser.

Lemma not_white_not_LF c : is_white c = false → Ascii.eqb c LF = false.
Proof. destruct c as [[] [] [] [] [] [] [] []]; vm_compute; congruence. Qed.

Lemma bol_at_cons bol c pre : bol_at bol (c :: pre) = bol_at (Ascii.eqb c LF) pre.
Proof.
  unfold bol_at. destruct pre as [|a pre]; [reflexivity|].
  rewrite last_cons_cons. destruct (last (a :: pre)) eqn:E; [done|].
  by apply last_None in E.
Qed.

Lemma bol_at_line_start pre :
  bol_at true pre = true → pre = [] ∨ last pre = Some LF.
Proof.
  unfold bol_at. destruct (last pre) as [c|] eqn:E.
  - intros ->%Ascii.eqb_eq. by right.
  - intros _. left. by apply last_None.
Qed.

(** The scan succeeds exactly when the grammar matches at a position that
    holds no white character. *)
Lemma scanString_positions bol s :
  scanString bol s = true ↔
  ∃ pre c rest, s = pre ++ c :: rest ∧ is_white c = false ∧
                _VERIFICATION_GRAMMAR (bol_at bol pre) (c :: rest) = true.
Proof.
  split.
  - revert bol. induction s as [|c s IH]; intros bol; simpl; [done|].
    destruct (is_white c) eqn:W.
    + intros (pre & c' & rest & -> & W' & G)%IH.
      exists (c :: pre), c', rest. by rewrite bol_at_cons.
    + intros [G | (pre & c' & rest & -> & W' & G)%IH]%orb_prop.
      * by exists [], c, s.
      * exists (c :: pre), c', rest.
        by rewrite bol_at_cons, (not_white_not_LF _ W).
  - intros (pre & c & rest & -> & W & G). revert bol G.
    induction pre as [|p pre IH]; intros bol G; simpl.
    + rewrite W. unfold bol_at in G. simpl in G. by rewrite G.
    + rewrite bol_at_cons in G. destruct (is_white p) eqn:Wp.
      * by apply IH.
      * rewrite (not_white_not_LF _ Wp) in G. rewrite (IH _ G).
        apply orb_true_r.
Qed.

Lemma _VERIFICATION_regex_start bol c rest r :
  _VERIFICATION_regex bol (c :: rest) = Some r → bol = true ∧ c ≠ HASH.
Proof.
  unfold _VERIFICATION_regex. destruct bol; simpl; [|done]. intros E.
  split; [done|]. intros ->. by destruct rest.
Qed.

Lemma to_end_of_line_line cs r :
  forallb (fun x => negb (Ascii.eqb x LF)) cs = true →
  to_end_of_line (cs ++ LF :: r) = LF :: r.
Proof.
  induction cs as [|c cs IH]; simpl; [done|].
  intros [C%negb_true_iff N]%andb_prop. rewrite C. auto.
Qed.

(** X5.  The probe verifies a sample only if it has a line that begins with
    a character that is neither the marker nor one of the four characters
    pyparsing skips (space, tabulation, line feed, carriage return), and
    after the first character of that line an anchor that no comment
    follows: a sample whose lines all begin with the marker is not verified.
    (The line may begin with a form feed or a vertical tabulation, which
    pyparsing does not skip.) *)
Theorem VerifyStructure_needs_unmarked_line (line : pystr) :
  VerifyStructure line = true →
  ∃ pre c rest,
    line = pre ++ c :: rest ∧ (pre = [] ∨ last pre = Some LF) ∧
    c ≠ HASH ∧ is_white c = false ∧
    ∃ mid s r, rest = mid ++ s ∧ anchor_at s r ∧ ¬ comment_follows r.
Proof.
  intros (pre & c & rest & -> & W & G)%scanString_positions.
  exists pre, c, rest.
  assert (bol_at true pre = true ∧ c ≠ HASH) as [B N].
  { unfold _VERIFICATION_GRAMMAR in G.
    destruct (_VERIFICATION_regex (bol_at true pre) (c :: rest)) as [r1|] eqn:E;
      [|done].
    by apply _VERIFICATION_regex_start in E. }
  split; [done|]. split; [by apply bol_at_line_start|]. split; [done|].
  split; [done|].
  apply _VERIFICATION_GRAMMAR_anchor in G as (pre' & s & t & r & E & T & C).
  destruct (_TIMESTAMP_sound _ _ _ T) as (ws & ds & Es & Ws & D & L & R & _).
  destruct pre' as [|x mid]; simpl in E.
  - rewrite Es in E. by injection E as -> _.
  - injection E as <- ->. exists mid, s, r. split; [done|]. split.
    + by exists ws, ds.
    + rewrite <- pythonStyleComment_follows. congruence.
Qed.

Lemma VerifyStructure_needs_unmarked_line_witness :
  ∃ pre c rest,
    history_ten_digits = pre ++ c :: rest ∧ (pre = [] ∨ last pre = Some LF) ∧
    c ≠ HASH ∧ is_white c = false ∧
    ∃ mid s r, rest = mid ++ s ∧ anchor_at s r ∧ ¬ comment_follows r.
Proof.
  apply (VerifyStructure_needs_unmarked_line history_ten_digits).
  vm_compute. reflexivity.
Defined.

(** X6.  The probe verifies a sample that has, at the beginning of a line, a
    command line (its first character neither the marker nor a space
    character, no line feed inside) and on the next line an anchor of nine
    or ten digits that no comment follows. *)
Theorem VerifyStructure_command_then_anchor (pre : pystr) (c : ascii)
    (cs ds r : pystr) :
  pre = [] ∨ last pre = Some LF →
  c ≠ HASH → is_re_space c = false →
  forallb (fun x => negb (Ascii.eqb x LF)) cs = true →
  forallb is_num ds = true → (9 ≤ length ds ≤ 10)%nat →
  starts_with_num r = false → pythonStyleComment r = false →
  VerifyStructure (pre ++ c :: cs ++ LF :: HASH :: ds ++ r) = true.
Proof.
  intros B N S C D L R P. apply scanString_positions.
  exists pre, c, (cs ++ LF :: HASH :: ds ++ r).
  assert (is_white c = false) as W.
  { unfold is_re_space in S.
    apply orb_false_elim in S as [S _]. by apply orb_false_elim in S as [S _]. }
  split; [done|]. split; [done|].
  assert (bol_at true pre = true) as ->.
  { unfold bol_at. destruct B as [-> | ->]; [done|]. apply Ascii.eqb_refl. }
  assert (_VERIFICATION_regex true (c :: cs ++ LF :: HASH :: ds ++ r)
          = Some (LF :: HASH :: ds ++ r)) as E.
  { assert (Ascii.eqb c HASH = false) as H by by apply Ascii.eqb_neq.
    transitivity (Some (to_end_of_line (cs ++ LF :: HASH :: ds ++ r)));
      [|by rewrite to_end_of_line_line].
    unfold _VERIFICATION_regex. cbn [negb].
    destruct cs as [|x cs]; cbn [app]; by rewrite S, H. }
  unfold _VERIFICATION_GRAMMAR. rewrite E.
  assert (skip is_white (LF :: HASH :: ds ++ r) = HASH :: ds ++ r) as ->
    by reflexivity.
  destruct (_TIMESTAMP_complete (HASH :: ds ++ r) r) as [t ->].
  { by exists [], ds. }
  by rewrite P.
Qed.

Lemma VerifyStructure_command_then_anchor_witness :
  VerifyStructure history_ten_digits = true.
Proof.
  apply (VerifyStructure_command_then_anchor
           (str "#1609459200" ++ [LF]) "l"%char (str "s -la")
           (str "1609459260") (LF :: str "whoami"));
    try (vm_compute; (reflexivity || lia || congruence)).
  right. reflexivity.
Defined.

End Probe.

(** ** Hostnames as the places database stores them *)

Section StoredHostname.
Import FirefoxHistoryPlugin.

(** X7.  The places database stores a hostname reversed and followed by a
    dot; [_ReverseHostname] gives the hostname back, whatever hostname that
    is not empty was stored. *)
Theorem _ReverseHostname_decodes_stored (host : pystr) :
  host ≠ [] → _ReverseHostname (Some (reverse host ++ [DOT])) = host.
Proof.
  intros N.
  assert (1 < length (reverse host ++ [DOT]))%nat as L.
  { rewrite length_app, length_reverse. destruct host; [done|]. simpl. lia. }
  etrans; [exact (_ReverseHostname_long _ L)|].
  assert (ends_with_dot (reverse host ++ [DOT]) = true) as ->
    by (apply ends_with_dot_last, last_snoc).
  by rewrite reverse_snoc, reverse_involutive.
Qed.

Lemma _ReverseHostname_decodes_stored_witness :
  _ReverseHostname (Some (reverse (str "www.google.com") ++ [DOT]))
  = str "www.google.com".
Proof. by apply _ReverseHostname_decodes_stored. Defined.

(** X8.  The result of [_ReverseHostname] has no leading dot, as its
    documentation says, for every string of more than one character that
    does not end with two dots. *)
Theorem _ReverseHostname_no_leading_dot (h : pystr) :
  (1 < length h)%nat → (∀ h', h ≠ h' ++ [DOT; DOT]) →
  head (_ReverseHostname (Some h)) ≠ Some DOT.
Proof.
  intros L N.
  assert (_ReverseHostname (Some h) =
          if ends_with_dot h then drop 1 (reverse h) else reverse h) as ->
    by exact (_ReverseHostname_long h L).
  destruct (ends_with_dot h) eqn:E.
  - apply ends_with_dot_last, last_Some in E as [h' ->].
    rewrite reverse_snoc.
    change (drop 1 (DOT :: reverse h')) with (reverse h').
    rewrite head_reverse. intros [h'' ->]%last_Some. apply (N h''). by rewrite <- app_assoc.
  - rewrite head_reverse. intros E'%ends_with_dot_last. congruence.
Qed.

Lemma _ReverseHostname_no_leading_dot_witness :
  head (_ReverseHostname (Some (str "moc.elgoog.www."))) ≠ Some DOT.
Proof.
  apply _ReverseHostname_no_leading_dot; [vm_compute; lia|].
  intros h' E. apply (f_equal reverse) in E.
  rewrite reverse_app in E. vm_compute in E. congruence.
Defined.

End StoredHostname.

(** ** Lookups in the URL cache *)

Section UrlLookup.
Import FirefoxHistoryPlugin.

(** The mapping [_GetUrl] reads: the stored one if it has entries, the one
    built from the rows of the cache query otherwise; and what the call
    returns and leaves behind. *)
Lemma _GetUrl_unfold url_id c d :
  _GetUrl url_id c d =
    if results_truthy (GetResults "url" c)
    then (url_text (m ← GetResults "url" c; m !! url_id), c, d)
    else (url_text (url_mapping (url_cache_rows d) !! url_id),
          <["url" := url_mapping (url_cache_rows d)]> c,
          run URL_CACHE_QUERY d).
Proof.
  unfold _GetUrl, url_text.
  destruct (results_truthy (GetResults "url" c)); simpl.
  - destruct (default _ _) as [u rh].
    by destruct (negb (py_truthy (sql_text u))).
  - unfold CacheQueryResults, GetResults. rewrite lookup_insert_eq. simpl.
    fold (url_mapping (url_cache_rows d)).
    destruct (default _ _) as [u rh].
    by destruct (negb (py_truthy (sql_text u))).
Qed.

Lemma url_mapping_snoc rows r :
  url_mapping (rows ++ [r]) =
    <[uc_id r := (uc_url r, uc_rev_host r)]> (url_mapping rows).
Proof. unfold url_mapping. by rewrite foldl_app. Qed.

Lemma url_mapping_lookup rows r :
  NoDup (uc_id <$> rows) → r ∈ rows →
  url_mapping rows !! uc_id r = Some (uc_url r, uc_rev_host r).
Proof.
  induction rows as [|x rows IH] using rev_ind; intros ND I.
  - by apply elem_of_nil in I.
  - rewrite url_mapping_snoc. rewrite fmap_app in ND. simpl in ND.
    apply NoDup_app in ND as (ND & Dis & _).
    apply elem_of_app in I as [I | ->%list_elem_of_singleton].
    + rewrite lookup_insert_ne; [by apply IH|].
      intros E. apply (Dis (uc_id r)).
      * apply list_elem_of_fmap. by exists r.
      * rewrite <- E. by apply list_elem_of_singleton.
    + apply lookup_insert_eq.
Qed.

(** X9.  What the cache query stored is found again: on a cache without a
    stored mapping, and a source whose visits have distinct ids, [_GetUrl]
    called with the id of a visit whose URL is not empty returns that URL
    followed by the reversed stored hostname in brackets. *)
Theorem _GetUrl_resolves_visit (c : SQLiteCache) (d : SQLiteDatabase)
    (r : UrlCacheRow) (url : pystr) :
  GetResults "url" c = None →
  NoDup (uc_id <$> url_cache_rows d) → r ∈ url_cache_rows d →
  uc_url r = Some url → url ≠ [] →
  (_GetUrl (uc_id r) c d).1.1 =
    url ++ str " (" ++ _ReverseHostname (uc_rev_host r) ++ str ")".
Proof.
  intros G ND I U N. rewrite _GetUrl_unfold, G. simpl.
  rewrite (url_mapping_lookup _ _ ND I). unfold url_text. simpl. rewrite U.
  simpl. by rewrite bool_decide_eq_false_2.
Qed.

Lemma _GetUrl_resolves_visit_witness :
  (_GetUrl (SqlInteger 10) ∅ two_visits_database).1.1 =
    str "https://www.google.com/ (www.google.com)".
Proof.
  apply (_GetUrl_resolves_visit ∅ two_visits_database
           {| uc_id := SqlInteger 10;
              uc_url := Some (str "https://www.google.com/");
              uc_rev_host := Some (str "moc.elgoog.www.") |}
           (str "https://www.google.com/")).
  - reflexivity.
  - by apply (bool_decide_unpack _).
  - apply list_elem_of_In. vm_compute. left. reflexivity.
  - reflexivity.
  - done.
Defined.

(** X10.  Asking twice gives the same answer: on a source whose cache query
    has rows, a second call of [_GetUrl] with the same url id, on the cache
    and the database as the first call left them, returns what the first
    call returned and changes neither the cache nor the database, whatever
    the cache held before the first call. *)
Theorem _GetUrl_same_answer_twice (url_id : sql_value) (c : SQLiteCache)
    (d : SQLiteDatabase) :
  url_cache_rows d ≠ [] →
  (_GetUrl url_id (_GetUrl url_id c d).1.2 (_GetUrl url_id c d).2).1.1
  = (_GetUrl url_id c d).1.1 ∧
  (_GetUrl url_id (_GetUrl url_id c d).1.2 (_GetUrl url_id c d).2).1.2
  = (_GetUrl url_id c d).1.2 ∧
  (_GetUrl url_id (_GetUrl url_id c d).1.2 (_GetUrl url_id c d).2).2
  = (_GetUrl url_id c d).2.
Proof.
  intros R. rewrite (_GetUrl_unfold url_id c d).
  destruct (results_truthy (GetResults "url" c)) eqn:T; simpl.
  - by rewrite _GetUrl_unfold, T.
  - assert (_GetUrl url_id (<["url" := url_mapping (url_cache_rows d)]> c)
                    (run URL_CACHE_QUERY d)
            = (url_text (url_mapping (url_cache_rows d) !! url_id),
               <["url" := url_mapping (url_cache_rows d)]> c,
               run URL_CACHE_QUERY d)) as ->; [|done].
    rewrite _GetUrl_unfold. unfold GetResults. rewrite lookup_insert_eq.
    simpl.
    by rewrite bool_decide_eq_false_2 by by apply url_mapping_non_empty.
Qed.

Lemma _GetUrl_same_answer_twice_witness :
  (_GetUrl (SqlInteger 10)
     (_GetUrl (SqlInteger 10) ∅ two_visits_database).1.2
     (_GetUrl (SqlInteger 10) ∅ two_visits_database).2).1.1
  = (_GetUrl (SqlInteger 10) ∅ two_visits_database).1.1.
Proof.
  apply (proj1 (_GetUrl_same_answer_twice
                  (SqlInteger 10) ∅ two_visits_database ltac:(done))).
Defined.

(** X11.  What [_GetUrl] leaves alone: the tables of the database, what the
    cache holds under other names than [url], and the queries that were run
    before, to which at most one run of the cache query is added. *)
Theorem _GetUrl_frame (url_id : sql_value) (c : SQLiteCache)
    (d : SQLiteDatabase) :
  same_tables (_GetUrl url_id c d).2 d ∧
  (∀ name, name ≠ "url" → (_GetUrl url_id c d).1.2 !! name = c !! name) ∧
  (executed (_GetUrl url_id c d).2 = executed d ∨
   executed (_GetUrl url_id c d).2 = executed d ++ [URL_CACHE_QUERY]).
Proof.
  rewrite _GetUrl_unfold.
  destruct (results_truthy (GetResults "url" c)); simpl.
  - repeat split; auto.
  - repeat split; [|by right].
    intros name N. by rewrite lookup_insert_ne.
Qed.

End UrlLookup.

(** ** The output of an invocation *)

Section Invocation.
Import FirefoxHistoryPlugin.

Lemma _GetUrl_same_tables url_id c d : same_tables (_GetUrl url_id c d).2 d.
Proof.
  rewrite _GetUrl_unfold.
  by destruct (results_truthy (GetResults "url" c)).
Qed.

Lemma callback_same_tables row query s :
  same_tables (database (callback row query s)) (database s).
Proof.
  destruct row as [r| | | |]; try done. simpl.
  unfold ParsePageVisitedRow, page_visited_extras.
  destruct (py_truthy (pv_from_visit r)); [|done].
  pose proof (_GetUrl_same_tables (pv_from_visit r) (cache s) (database s)) as T.
  by destruct (_GetUrl (pv_from_visit r) (cache s) (database s)) as [[u c] d].
Qed.

Lemma same_tables_trans d1 d2 d3 :
  same_tables d1 d2 → same_tables d2 d3 → same_tables d1 d3.
Proof.
  intros (? & ? & ? & ?) (? & ? & ? & ?). repeat split; congruence.
Qed.

Lemma events_of_rows_app ref rows1 rows2 :
  events_of_rows ref (rows1 ++ rows2) =
    events_of_rows ref rows1 ++ events_of_rows (ref + length rows1) rows2.
Proof.
  revert ref. induction rows1 as [|row rows1 IH]; intros ref; simpl.
  - by rewrite Nat.add_0_r.
  - rewrite IH, <- app_assoc. do 3 f_equal. lia.
Qed.

(** The handlers called on a sequence of rows. *)
Lemma foldl_callback_mediator rows query s :
  let s' := foldl (fun s row => callback row query s) s rows in
  produced (mediator s') =
    produced (mediator s)
    ++ events_of_rows (length (event_data_objects (mediator s))) rows ∧
  (∃ new, event_data_objects (mediator s') =
            event_data_objects (mediator s) ++ new ∧
          length new = length rows) ∧
  same_tables (database s') (database s).
Proof.
  revert s. induction rows as [|row rows IH]; intros s; simpl.
  - split; [by rewrite app_nil_r|]. split; [|done].
    exists []. by rewrite app_nil_r.
  - destruct (IH (callback row query s)) as (P & (new & O & L) & T).
    destruct (callback_mediator row query s) as [d M].
    rewrite M in P. rewrite M in O. simpl in P, O.
    split; [|split].
    + rewrite P, <- app_assoc, length_app. simpl.
      by rewrite Nat.add_1_r.
    + exists (d :: new). split; [by rewrite O, <- app_assoc|]. simpl. by f_equal.
    + eapply same_tables_trans; [exact T|]. apply callback_same_tables.
Qed.

Lemma foldl_ParseQuery_mediator qs s :
  let s' := foldl ParseQuery s qs in
  produced (mediator s') =
    produced (mediator s)
    ++ events_of_rows (length (event_data_objects (mediator s)))
                      (q ← qs; result_rows q (database s)) ∧
  (∃ new, event_data_objects (mediator s') =
            event_data_objects (mediator s) ++ new ∧
          length new = length (q ← qs; result_rows q (database s))) ∧
  same_tables (database s') (database s).
Proof.
  revert s. induction qs as [|q qs IH]; intros s; simpl.
  - split; [by rewrite app_nil_r|]. split; [|done].
    exists []. by rewrite app_nil_r.
  - destruct (IH (ParseQuery s q)) as (P & (new & O & L) & T).
    assert (produced (mediator (ParseQuery s q)) =
              produced (mediator s)
              ++ events_of_rows (length (event_data_objects (mediator s)))
                                (result_rows q (database s)) ∧
            (∃ new1, event_data_objects (mediator (ParseQuery s q)) =
                       event_data_objects (mediator s) ++ new1 ∧
                     length new1 = length (result_rows q (database s))) ∧
            same_tables (database (ParseQuery s q)) (database s))
      as (P1 & (new1 & O1 & L1) & T1).
    { destruct (foldl_callback_mediator
                  (result_rows q (database s)) (Some (query_text q))
                  {| mediator := mediator s; cache := cache s;
                     database := run q (database s) |})
        as (P1 & O1 & T1).
      split; [exact P1|]. split; [exact O1|].
      eapply same_tables_trans; [exact T1|done]. }
    assert ((q' ← qs; result_rows q' (database (ParseQuery s q)))
            = (q' ← qs; result_rows q' (database s))) as E.
    { clear -T1. induction qs as [|q' qs IH]; [done|].
      change ((q' :: qs) ≫= ?f) with (f q' ++ (qs ≫= f)).
      f_equal; [by apply same_tables_result_rows | exact IH]. }
    rewrite E in P. rewrite E in L.
    split; [|split].
    + rewrite P, P1, O1, <- app_assoc, events_of_rows_app, length_app, L1.
      done.
    + exists (new1 ++ new). split.
      * by rewrite O, O1, <- app_assoc.
      * by rewrite !length_app, L1, L.
    + by eapply same_tables_trans.
Qed.

Lemma callback_references_valid row query s :
  references_valid (mediator s) →
  references_valid (mediator (callback row query s)).
Proof.
  intros V e ref. destruct (callback_mediator row query s) as [d ->]. simpl.
  rewrite length_app. simpl.
  intros [I | [-> _]%elem_of_events_for]%elem_of_app; [|lia].
  specialize (V e ref I). lia.
Qed.

(** X12.  The handlers keep the references of the events valid: if every
    event produced before refers to an event data object that exists, so
    does every event after the handlers were called on a sequence of rows,
    whatever the rows and their order. *)
Theorem handlers_references_valid (rows : list Row) (query : option pystr)
    (s : Scan) :
  references_valid (mediator s) →
  references_valid (mediator (handle_rows rows query s)).
Proof.
  unfold handle_rows. revert s.
  induction rows as [|row rows IH]; intros s H; simpl; [done|].
  by apply IH, callback_references_valid.
Qed.

Lemma handlers_references_valid_witness :
  references_valid
    (mediator (handle_rows [added_only_row; page_visited_row second_visit_row]
                           None empty_scan)).
Proof.
  apply handlers_references_valid. intros e ref I. by apply elem_of_nil in I.
Defined.

(** X13.  The output of the handlers called on a sequence of rows: the
    events produced before stay as they are; after them come, row after
    row, the events of the timestamp columns of the row that are set, in
    the order of the handler, the events of the i-th row referring to the
    i-th event data object created; one event data object is created for
    each row, also for a row without an event; and the tables of the
    database are not changed. *)
Theorem handlers_output (rows : list Row) (query : option pystr) (s : Scan) :
  produced (mediator (handle_rows rows query s)) =
    produced (mediator s)
    ++ events_of_rows (length (event_data_objects (mediator s))) rows ∧
  (∃ new, event_data_objects (mediator (handle_rows rows query s)) =
            event_data_objects (mediator s) ++ new ∧
          length new = length rows) ∧
  same_tables (database (handle_rows rows query s)) (database s).
Proof. apply foldl_callback_mediator. Qed.

(** For the invocation as it is modelled: the rows are those of the four
    queries, in the order of [QUERIES]. *)
Corollary Process_output (parser_mediator : ParserMediator)
    (db : SQLiteDatabase) :
  produced (mediator (Process parser_mediator db)) =
    produced parser_mediator
    ++ events_of_rows (length (event_data_objects parser_mediator))
                      (all_rows db) ∧
  ∃ new,
    event_data_objects (mediator (Process parser_mediator db)) =
      event_data_objects parser_mediator ++ new ∧
    length new = length (all_rows db).
Proof.
  destruct (foldl_ParseQuery_mediator QUERIES
              {| mediator := parser_mediator; cache := ∅; database := db |})
    as (P & O & _).
  done.
Qed.

Lemma _BOOKMARK_TYPES_get_Separator v :
  _BOOKMARK_TYPES_get v = str "Separator" → v = SqlInteger 3.
Proof.
  destruct v as [|[|[[]|[]|]|]|]; simpl; intros E; try discriminate E.
  reflexivity.
Qed.

(** X14.  The bookmark query leaves out the separators and the bookmarks
    without a type: no row of it has the type 3 or NULL, so the handler never
    gives a bookmark of the query the type [Separator] of
    [_BOOKMARK_TYPES]. *)
Theorem bookmark_rows_no_separator (db : SQLiteDatabase) (row : BookmarkRow) :
  row ∈ bookmark_rows db →
  bm_type row ≠ SqlInteger 3 ∧ bm_type row ≠ SqlNull ∧
  _BOOKMARK_TYPES_get (bm_type row) ≠ str "Separator".
Proof.
  unfold bookmark_rows.
  intros (p & (b & I & _)%list_elem_of_bind & _)%list_elem_of_bind.
  destruct (sql_eq (b_fk b) (p_id p) && sql_ne (b_type b) (SqlInteger 3))
    eqn:C; [|by apply elem_of_nil in I].
  apply list_elem_of_singleton in I as ->. simpl.
  apply andb_prop in C as [_ C].
  assert (b_type b ≠ SqlInteger 3 ∧ b_type b ≠ SqlNull) as [N3 N0].
  { destruct (b_type b) as [|z|t]; simpl in C; [done| |done].
    apply negb_true_iff, Z.eqb_neq in C. split; congruence. }
  repeat split; try done.
  intros E. by apply _BOOKMARK_TYPES_get_Separator in E.
Qed.

Lemma bookmark_rows_no_separator_witness :
  _BOOKMARK_TYPES_get
    (bm_type
       {| bm_type := SqlInteger 1; bm_bookmark_title := SqlText (str "Search");
          bm_dateAdded := SqlInteger 1000000;
          bm_lastModified := SqlInteger 2000000;
          bm_url := Some (str "https://www.google.com/");
          bm_places_title := SqlText (str "Google");
          bm_rev_host := Some (str "moc.elgoog.www.");
          bm_visit_count := SqlInteger 2; bm_id := SqlInteger 5 |})
  ≠ str "Separator".
Proof.
  apply (bookmark_rows_no_separator bookmarks_database).
  apply list_elem_of_In. vm_compute. left. reflexivity.
Defined.

(** X15.  The flags of a page visit are compared with the strings ['1']: for
    a row whose columns [hidden] and [typed] hold integers, whatever
    integers, the hidden marker is never attached and the marker of the
    typed check is the not-typed one. *)
Theorem ParsePageVisitedRow_integer_flags (m : ParserMediator)
    (row : PageVisitedRow) (c : SQLiteCache) (d : SQLiteDatabase)
    (query : option pystr) (hidden typed : Z) :
  pv_hidden row = SqlInteger hidden → pv_typed row = SqlInteger typed →
  created_extra (ParsePageVisitedRow m row c d query).1.1 =
    Some ((if py_truthy (pv_from_visit row)
           then [str "visited from: " ++ (_GetUrl (pv_from_visit row) c d).1.1]
           else [])
          ++ [str "(URL not typed directly)"]).
Proof.
  intros H T.
  rewrite ParsePageVisitedRow_created_extra, page_visited_extras_list.
  unfold flag_markers. by rewrite H, T.
Qed.

Lemma ParsePageVisitedRow_integer_flags_witness :
  created_extra
    (ParsePageVisitedRow empty_mediator integer_flags_row ∅
       two_visits_database None).1.1
  = Some [str "(URL not typed directly)"].
Proof.
  exact (ParsePageVisitedRow_integer_flags
           empty_mediator integer_flags_row ∅ two_visits_database None 1 1
           eq_refl eq_refl).
Defined.

(** X16.  A page visit without a referring visit leaves the cache alone:
    when the column [from_visit] is NULL or 0 the handler does not call
    [_GetUrl], so the cache and the database are as they were and no query
    was run. *)
Theorem ParsePageVisitedRow_no_referrer (m : ParserMediator)
    (row : PageVisitedRow) (c : SQLiteCache) (d : SQLiteDatabase)
    (query : option pystr) :
  py_truthy (pv_from_visit row) = false →
  (ParsePageVisitedRow m row c d query).1.2 = c ∧
  (ParsePageVisitedRow m row c d query).2 = d ∧
  created_extra (ParsePageVisitedRow m row c d query).1.1 =
    Some (flag_markers row).
Proof.
  intros F. split; [|split].
  - unfold ParsePageVisitedRow, page_visited_extras. by rewrite F.
  - unfold ParsePageVisitedRow, page_visited_extras. by rewrite F.
  - rewrite ParsePageVisitedRow_created_extra, page_visited_extras_list.
    by rewrite F.
Qed.

Lemma ParsePageVisitedRow_no_referrer_witness :
  (ParsePageVisitedRow empty_mediator first_visit_row ∅
     two_visits_database None).2 = two_visits_database.
Proof.
  exact (proj1 (proj2 (ParsePageVisitedRow_no_referrer
                         empty_mediator first_visit_row ∅
                         two_visits_database None eq_refl))).
Defined.

(** X17.  A visit whose place has no URL resolves like a miss: on a cache
    without a stored mapping, and a source whose visits have distinct ids,
    [_GetUrl] called with the id of a visit whose URL is NULL or empty
    returns the empty string, whatever the stored hostname. *)
Theorem _GetUrl_empty_url (c : SQLiteCache) (d : SQLiteDatabase)
    (r : UrlCacheRow) :
  GetResults "url" c = None →
  NoDup (uc_id <$> url_cache_rows d) → r ∈ url_cache_rows d →
  py_truthy (sql_text (uc_url r)) = false →
  (_GetUrl (uc_id r) c d).1.1 = [].
Proof.
  intros G ND I U. rewrite _GetUrl_unfold, G. simpl.
  rewrite (url_mapping_lookup _ _ ND I). unfold url_text. simpl.
  by rewrite U.
Qed.

Lemma _GetUrl_empty_url_witness :
  (_GetUrl (SqlInteger 10) ∅ no_url_database).1.1 = [].
Proof.
  apply (_GetUrl_empty_url ∅ no_url_database
           {| uc_id := SqlInteger 10; uc_url := None;
              uc_rev_host := Some (str "moc.elgoog.www.") |}).
  - reflexivity.
  - by apply (bool_decide_unpack _).
  - apply list_elem_of_In. vm_compute. left. reflexivity.
  - reflexivity.
Defined.

End Invocation.

(** ** Where the line grammar matches *)

Section Matches.
Import BashHistoryParser.

(** X18.  The line grammar matches a text exactly when the text starts with
    an anchor: the marker, white characters or none, and nine or ten digits
    that no further digit follows.  No payload makes the match fail, and no
    text with fewer than nine or more than ten digits is matched. *)
Theorem _LINE_GRAMMAR_matches_iff_anchor (s : pystr) :
  is_Some (_LINE_GRAMMAR s) ↔ ∃ r, anchor_at s r.
Proof.
  split.
  - intros [[st rest] E]. unfold _LINE_GRAMMAR in E.
    destruct (_TIMESTAMP s) as [[t r]|] eqn:T; [|done].
    destruct (_TIMESTAMP_sound _ _ _ T) as (ws & ds & Es & W & D & L & R & _).
    exists r, ws, ds. done.
  - intros [r A]. apply _TIMESTAMP_complete in A as [t T].
    by eapply _LINE_GRAMMAR_matches.
Qed.

End Matches.

(** ** The command of a record *)

Section RecordCommand.
Import BashHistoryParser.









End RecordCommand.
